(** * The deal-generation pipeline of [src/02_build_deals.py]

    A shallow embedding of the funnel simulation: the probability model
    ([calculate_create_probability], [calculate_win_probability]), the
    duration model ([calculate_duration_scales]), the leakage rates
    ([calculate_leakage_rates]) and the per-company state machine
    ([process_company_deal]) driven by [main].

    Conventions.
    - A Python [float] is an IEEE-754 binary64 value, modelled by the
      Standard Library's [spec_float] with [prec = 53], [emax = 1024]; the
      arithmetic is the correctly rounded one of [SpecFloat] and the
      comparisons are the IEEE ones (every comparison with NaN is false).
    - A decimal literal of the source such as [0.03] is [dec 3 100], the
      correctly rounded quotient of the two integers.
    - Python's [min] and [max] keep their first argument unless a later one
      is strictly smaller (resp. larger); this is what decides the result on
      NaN and is written out in [py_min] and [py_max].
    - The module-level generator [rng] and the operating-system entropy
      behind [uuid.uuid4] are the two pieces of hidden state; they are
      threaded explicitly through a state-and-exception monad.  The numpy
      samplers themselves are not part of the repository: they are taken as
      an interface ([Numpy]) and nothing is assumed of the values they
      return unless a theorem says so.
    - [int(x)] raises on NaN and on the infinities; the exception ends
      the run, as in the script, which catches nothing.
    - A pandas [Timestamp] is its count of nanoseconds since the epoch,
      [pd.NaT] is [NaT]; the range limits of pandas timestamps are not
      modelled.  The [created_date] of a company is always a timestamp:
      [01_build_companies.py] draws one for every row.
    - [process_company_deal] is one function in the source; it is cut in
      two at line 234 ([deal_schedule], [deal_outcome]) so that the
      statements can name the state in which the leakage trials start. *)

From Stdlib Require Import ZArith Lia List String Ascii Bool.
From Stdlib Require Import Floats.SpecFloat.
Import ListNotations.
Local Open Scope Z_scope.

(* ================================================================== *)
(** ** Python floats *)

Module PyFloat.

Definition float := spec_float.

Definition prec : Z := 53.
Definition emax : Z := 1024.

Definition mul : float -> float -> float := SFmul prec emax.
Definition add : float -> float -> float := SFadd prec emax.
Definition div : float -> float -> float := SFdiv prec emax.

(** [x < y], [x <= y], [x > y], [x >= y], [x == y] on floats. *)
Definition lt (x y : float) : bool := SFltb x y.
Definition le (x y : float) : bool := SFleb x y.
Definition gt (x y : float) : bool := SFltb y x.
Definition ge (x y : float) : bool := SFleb y x.
Definition eq (x y : float) : bool := SFeqb x y.

(** The float nearest to an integer (round to nearest, ties to even). *)
Definition of_int (z : Z) : float := binary_normalize prec emax z 0 false.

(** The decimal literal [n / d], e.g. [dec 97 100] for [0.97]. *)
Definition dec (n d : Z) : float := div (of_int n) (of_int d).

(** Truth value of a float: only [0.0] and [-0.0] are false. *)
Definition truthy (x : float) : bool := negb (eq x (S754_zero false)).

(** [x or 0.0]. *)
Definition or_zero (x : float) : float :=
  if truthy x then x else S754_zero false.

Definition is_nan (x : float) : bool :=
  match x with S754_nan => true | _ => false end.

(** [min(a, b)] and [max(a, b)] as the interpreter computes them. *)
Definition py_min (a b : float) : float := if lt b a then b else a.
Definition py_max (a b : float) : float := if gt b a then b else a.

End PyFloat.
Import PyFloat.

(** [max(a, b)] on Python integers. *)
Definition py_max_int (a b : Z) : Z := if b >? a then b else a.

(* ================================================================== *)
(** ** Exceptions and the state monad *)

Inductive exn : Type :=
| ValueError
| OverflowError.

Inductive result (W A : Type) : Type :=
| Raised (e : exn)
| Returned (a : A) (w : W).
Arguments Raised {W A} e.
Arguments Returned {W A} a w.

Definition M (W A : Type) : Type := W -> result W A.

Definition ret {W A} (a : A) : M W A := fun w => Returned a w.
Definition raise {W A} (e : exn) : M W A := fun _ => Raised e.
Definition bind {W A B} (c : M W A) (k : A -> M W B) : M W B :=
  fun w => match c w with
           | Raised e => Raised e
           | Returned a w' => k a w'
           end.

Notation "x <- c ;; k" := (bind c (fun x => k))
  (at level 61, c at next level, right associativity).
Notation "' pat <- c ;; k" := (bind c (fun x => match x with pat => k end))
  (at level 61, pat pattern, c at next level, right associativity).

(** [int(x)] on a float: truncation toward zero; NaN and the infinities
    raise. *)
Definition int_of_float {W} (x : float) : M W Z :=
  match x with
  | S754_zero _ => ret 0
  | S754_finite s m e =>
      let a := Z.shiftl (Zpos m) e in
      ret (if s then - a else a)
  | S754_nan => raise ValueError
  | S754_infinity _ => raise OverflowError
  end.

(** [float(n)] on an integer, as the left operand of [n * 0.8] is
    converted: correctly rounded, an integer beyond the largest float
    raises. *)
Definition float_of_int {W} (n : Z) : M W float :=
  match of_int n with
  | S754_infinity _ => raise OverflowError
  | x => ret x
  end.

(* ================================================================== *)
(** ** Timestamps *)

Inductive datetime : Type :=
| NaT
| Timestamp (ns : Z).

Definition NS_PER_DAY : Z := 86400 * 1000000000.

(** [pd.Timedelta(days=n)], in nanoseconds. *)
Definition Timedelta_days (n : Z) : Z := n * NS_PER_DAY.

Definition is_null (d : datetime) : bool :=
  match d with NaT => true | Timestamp _ => false end.

(* ================================================================== *)
(** ** Strings *)

Definition lower_ascii (c : ascii) : ascii :=
  let n := nat_of_ascii c in
  if (Nat.leb 65 n && Nat.leb n 90)%bool then ascii_of_nat (n + 32)%nat else c.

(** [s.lower()], on the ASCII letters. *)
Fixpoint lower (s : string) : string :=
  match s with
  | EmptyString => EmptyString
  | String c r => String (lower_ascii c) (lower r)
  end.

(** [needle in hay]. *)
Fixpoint contains (needle hay : string) : bool :=
  if String.prefix needle hay then true
  else match hay with
       | EmptyString => false
       | String _ r => contains needle r
       end.

(** [any(k in s for k in keys)]. *)
Definition any_in (keys : list string) (s : string) : bool :=
  existsb (fun k => contains k s) keys.

(* ================================================================== *)
(** ** Configuration and constants *)

Definition RNG_SEED : Z := 43.

Definition SALES_OWNERS : list string :=
  [ "Marissa"; "Maria"; "Henry"; "Isabella"; "Jack"; "Katherine"; "Luke";
    "Mary"; "Noah"; "Olivia"; "Peter"; "Quinn"; "Rachel"; "Samuel";
    "Taylor"; "William"; "Zachary" ]%string.

Definition DURATION_BY_BAND : list (string * float) :=
  [ ("2-10", dec 90 100); ("11-50", dec 100 100); ("51-200", dec 110 100);
    ("201-500", dec 118 100); ("501-1000", dec 122 100);
    ("1001-5000", dec 130 100); ("5001-10000", dec 138 100);
    ("10001+", dec 145 100) ]%string.

Definition WIN_MULT_BY_BAND : list (string * float) :=
  [ ("2-10", dec 100 100); ("11-50", dec 100 100); ("51-200", dec 100 100);
    ("201-500", dec 97 100); ("501-1000", dec 95 100);
    ("1001-5000", dec 92 100); ("5001-10000", dec 90 100);
    ("10001+", dec 88 100) ]%string.

Definition ICP_CREATE_MULT : float := dec 30 100.
Definition ICP_WIN_MULT : float := dec 40 100.
Definition X12_CLR_MULT : float := dec 120 100.
Definition FHIR_MULT : float := dec 110 100.
Definition X12_CLR_WIN_MULT : float := dec 125 100.
Definition FHIR_WIN_MULT : float := dec 110 100.

Definition PREV_CUSTOMER_CREATE_MIN : float := dec 85 100.
Definition PREV_CUSTOMER_WIN_MIN : float := dec 70 100.

Definition PREV_CUSTOMER_DURATION_MULT : float := dec 85 100.
Definition EVAL_MULT_X12_CLR : float := dec 110 100.
Definition NEGO_MULT_X12_CLR : float := dec 115 100.
Definition NEGO_MULT_FHIR : float := dec 105 100.

(** [multiplier_dict.get(key, default)]. *)
Fixpoint dict_get (d : list (string * float)) (key : string) (default : float)
  : float :=
  match d with
  | [] => default
  | (k, v) :: r => if String.eqb k key then v else dict_get r key default
  end.

Definition get_band_multiplier (band_label : string)
  (multiplier_dict : list (string * float)) : float :=
  dict_get multiplier_dict band_label (dec 10 10).

(** [health_tech_str] is the cell of the CSV: a string, or [None] for an
    empty cell, which pandas reads as NaN and [str] prints as [nan]. *)
Definition parse_health_tech (health_tech_str : option string)
  : bool * bool * bool :=
  let tech_str :=
    lower (match health_tech_str with
           | None => "nan"
           | Some s => s   (* [s or ''] is [s], also when [s] is empty *)
           end)%string in
  let x12_codes := [ "x12"; "270"; "271"; "276"; "277"; "278"; "835"; "837" ]%string in
  let has_x12 := any_in x12_codes tech_str in
  let has_fhir := (contains "fhir" tech_str || contains "hl7" tech_str)%bool in
  let clearinghouse_terms :=
    [ "clearinghouse"; "availity"; "edifecs"; "change healthcare"; "optum" ]%string in
  let has_clearinghouse := any_in clearinghouse_terms tech_str in
  (has_x12, has_fhir, has_clearinghouse).

Definition clamp (value min_val max_val : float) : float :=
  py_max min_val (py_min max_val value).

(* ================================================================== *)
(** ** The two sources of hidden state *)

(** The interface of [numpy.random.Generator] that the script uses, over an
    abstract generator state, together with [np.exp].  Each sampler returns
    its draw and the advanced state. *)
Record Numpy : Type := {
  rng_state : Type;
  default_rng : Z -> rng_state;
  rng_beta : float -> float -> rng_state -> float * rng_state;
  rng_normal : float -> float -> rng_state -> float * rng_state;
  rng_lognormal : float -> float -> rng_state -> float * rng_state;
  rng_random : rng_state -> float * rng_state;
  rng_integers : Z -> Z -> rng_state -> Z * rng_state;
  rng_choice : list string -> rng_state -> string * rng_state;
  np_exp : float -> float
}.

(** [rng.integers(low, high)] draws from the half-open range. *)
Definition integers_in_range (np : Numpy) : Prop :=
  forall low high s, low < high ->
    low <= fst (rng_integers np low high s) < high.

(** The entropy pool of the operating system behind [os.urandom]. *)
Record Os : Type := {
  os_state : Type;
  os_urandom : nat -> os_state -> list Byte.byte * os_state
}.

(** [os.urandom(n)] returns exactly [n] bytes. *)
Definition urandom_exact (sys : Os) : Prop :=
  forall n s, List.length (fst (os_urandom sys n s)) = n.

(* ------------------------------------------------------------------ *)
(** *** [uuid.uuid4], from the standard library's [uuid] module *)

(** [int.from_bytes(bs, 'big')]. *)
Definition int_from_bytes (bs : list Byte.byte) : Z :=
  fold_left (fun acc b => acc * 256 + Z.of_N (Byte.to_N b)) bs 0.

(** The variant and version bits set by [UUID.__init__]. *)
Definition uuid_with_version (i version : Z) : Z :=
  let i := Z.land i (Z.lnot (Z.shiftl 0xc000 48)) in
  let i := Z.lor i (Z.shiftl 0x8000 48) in
  let i := Z.land i (Z.lnot (Z.shiftl 0xf000 64)) in
  Z.lor i (Z.shiftl version 76).

Definition hex_digit (n : Z) : ascii :=
  ascii_of_nat (Z.to_nat (if n <? 10 then 48 + n else 87 + n)).

(** The [k] lowest hexadecimal digits of [i], most significant first. *)
Fixpoint hex_digits (k : nat) (i : Z) : string :=
  match k with
  | O => EmptyString
  | S k' =>
      String (hex_digit (Z.land (Z.shiftr i (4 * Z.of_nat k')) 15))
             (hex_digits k' i)
  end.

(** [str(UUID(int=i))]: the 8-4-4-4-12 grouping of ['%032x' % i]. *)
Definition uuid_str (i : Z) : string :=
  let hex := hex_digits 32 i in
  (substring 0 8 hex ++ "-" ++ substring 8 4 hex ++ "-" ++
   substring 12 4 hex ++ "-" ++ substring 16 4 hex ++ "-" ++
   substring 20 12 hex)%string.

(* ================================================================== *)
(** ** Records *)

(** A row of [data/raw/companies.csv], with the columns the script
    reads. *)
Module CompanyRow.
Record t : Type := {
  account_id : string;
  employee_band : string;
  created_date : Z;                 (* a Timestamp, never NaT *)
  icp : bool;
  icp_confidence : float;
  is_prev_stedi_customer : bool;
  tech_stack_confidence : float;
  health_tech : option string
}.
End CompanyRow.
Definition Company : Type := CompanyRow.t.

(** The dictionary returned by [process_company_deal]. *)
Record Deal : Type := {
  deal_id : string;
  account_id : string;
  owner : string;
  created_date : datetime;
  stage_date_discovery : datetime;
  stage_date_evaluation : datetime;
  stage_date_proposal : datetime;
  stage_date_negotiation : datetime;
  stage_date_closed_won : datetime;
  stage_date_closed_lost : datetime
}.

(** The local variables of [process_company_deal] that are live after the
    leakage rates have been computed (line 234). *)
Record Locals : Type := {
  l_prev_customer : bool;
  l_win_prob : float;
  l_deal_id : string;
  l_owner : string;
  l_created_date : Z;
  l_base_scale : float;
  l_discovery_date : Z;
  l_evaluation_date : Z;
  l_proposal_date : Z;
  l_negotiation_date : Z;
  l_leak_eval_rate : float;
  l_leak_prop_rate : float;
  l_leak_neg_rate : float
}.

(* ================================================================== *)
(** ** The script *)

Section Script.

Context (np : Numpy) (sys : Os).

(** The module-level [rng] and the entropy pool. *)
Record world : Type := {
  rng : rng_state np;
  os : os_state sys
}.

Definition Py : Type -> Type := M world.

(** A call of a sampler on the shared generator. *)
Definition sample {A} (f : rng_state np -> A * rng_state np) : Py A :=
  fun w => let (a, s) := f (rng w) in Returned a {| rng := s; os := os w |}.

Definition os_read (n : nat) : Py (list Byte.byte) :=
  fun w => let (bs, o) := os_urandom sys n (os w) in
           Returned bs {| rng := rng w; os := o |}.

(** [uuid.uuid4()] is [UUID(bytes=os.urandom(16), version=4)]. *)
Definition uuid4 : Py Z :=
  bs <- os_read 16 ;;
  if Nat.eqb (List.length bs) 16
  then ret (uuid_with_version (int_from_bytes bs) 4)
  else raise ValueError.

Definition generate_id : Py string :=
  u <- uuid4 ;;
  ret (uuid_str u).

Definition generate_baseline_probability (alpha beta : float) : Py float :=
  sample (rng_beta np alpha beta).

Definition add_jitter (sigma : float) : Py float :=
  x <- sample (rng_normal np (dec 0 10) sigma) ;;
  ret (np_exp np x).

Definition calculate_create_probability
    (icp : bool) (icp_confidence : float) (prev_customer : bool)
    (has_x12 has_fhir has_clearinghouse : bool) (stack_confidence : float)
  : Py float :=
  b <- generate_baseline_probability (dec 16 10) (dec 30 10) ;;
  j <- add_jitter (dec 12 100) ;;
  let baseline := mul b j in
  let multiplier := dec 10 10 in
  let multiplier :=
    if icp
    then mul multiplier
           (add (dec 10 10) (mul ICP_CREATE_MULT (or_zero icp_confidence)))
    else multiplier in
  let multiplier :=
    if (has_x12 || has_clearinghouse)%bool then mul multiplier X12_CLR_MULT
    else if has_fhir then mul multiplier FHIR_MULT
    else multiplier in
  let multiplier :=
    mul multiplier
      (add (dec 6 10) (mul (dec 4 10) (or_zero stack_confidence))) in
  let probability := mul baseline multiplier in
  let probability :=
    if prev_customer then py_max probability PREV_CUSTOMER_CREATE_MIN
    else probability in
  ret (clamp probability (dec 3 100) (dec 97 100)).

Definition calculate_win_probability
    (icp : bool) (icp_confidence : float) (prev_customer : bool)
    (has_x12 has_fhir has_clearinghouse : bool) (stack_confidence : float)
    (band_label : string)
  : Py float :=
  b <- generate_baseline_probability (dec 15 10) (dec 40 10) ;;
  j <- add_jitter (dec 12 100) ;;
  let baseline := mul b j in
  let multiplier := dec 10 10 in
  let multiplier :=
    if icp
    then mul multiplier
           (add (dec 10 10) (mul ICP_WIN_MULT (or_zero icp_confidence)))
    else multiplier in
  let multiplier :=
    if (has_x12 || has_clearinghouse)%bool then mul multiplier X12_CLR_WIN_MULT
    else if has_fhir then mul multiplier FHIR_WIN_MULT
    else multiplier in
  let multiplier :=
    mul multiplier (get_band_multiplier band_label WIN_MULT_BY_BAND) in
  let multiplier :=
    mul multiplier
      (add (dec 6 10) (mul (dec 4 10) (or_zero stack_confidence))) in
  let probability := mul baseline multiplier in
  let probability :=
    if prev_customer then py_max probability PREV_CUSTOMER_WIN_MIN
    else probability in
  ret (clamp probability (dec 2 100) (dec 98 100)).

Definition calculate_duration_scales
    (band_label : string) (prev_customer : bool)
    (has_x12_or_clearinghouse has_fhir : bool)
  : Py (float * float * float) :=
  let base_scale := get_band_multiplier band_label DURATION_BY_BAND in
  let base_scale :=
    if prev_customer then mul base_scale PREV_CUSTOMER_DURATION_MULT
    else base_scale in
  let eval_mult :=
    if (has_x12_or_clearinghouse || has_fhir)%bool then EVAL_MULT_X12_CLR
    else dec 100 100 in
  let nego_mult :=
    if has_x12_or_clearinghouse then NEGO_MULT_X12_CLR
    else if has_fhir then NEGO_MULT_FHIR
    else dec 100 100 in
  j1 <- add_jitter (dec 8 100) ;;
  j2 <- add_jitter (dec 6 100) ;;
  j3 <- add_jitter (dec 6 100) ;;
  ret (mul base_scale j1, mul eval_mult j2, mul nego_mult j3).

Definition calculate_leakage_rates
    (icp prev_customer has_x12_or_clearinghouse : bool)
  : Py (float * float * float) :=
  base_eval <- sample (rng_beta np (dec 25 10) (dec 200 10)) ;;
  base_prop <- sample (rng_beta np (dec 25 10) (dec 180 10)) ;;
  base_neg <- sample (rng_beta np (dec 25 10) (dec 180 10)) ;;
  let adjustment := dec 10 10 in
  let adjustment :=
    if icp then mul adjustment (dec 85 100) else adjustment in
  let adjustment :=
    if prev_customer then mul adjustment (dec 70 100) else adjustment in
  let adjustment :=
    if has_x12_or_clearinghouse then mul adjustment (dec 90 100)
    else adjustment in
  ret (clamp (mul base_eval adjustment) (dec 2 100) (dec 25 100),
       clamp (mul base_prop adjustment) (dec 3 100) (dec 30 100),
       clamp (mul base_neg adjustment) (dec 3 100) (dec 30 100)).

(** [max(1, int(x))]. *)
Definition days_of (x : float) : Py Z :=
  n <- int_of_float x ;;
  ret (py_max_int 1 n).

(** [process_company_deal], lines 188-234: the probabilities, the
    creation trial, the identifier and owner, the stage dates and the
    leakage rates.  [None] is the early [return None]. *)
Definition deal_schedule (company_row : Company) : Py (option Locals) :=
  let icp := CompanyRow.icp company_row in
  let icp_confidence := or_zero (CompanyRow.icp_confidence company_row) in
  let prev_customer := CompanyRow.is_prev_stedi_customer company_row in
  let stack_confidence :=
    or_zero (CompanyRow.tech_stack_confidence company_row) in
  let band_label := CompanyRow.employee_band company_row in
  let '(has_x12, has_fhir, has_clearinghouse) :=
    parse_health_tech (CompanyRow.health_tech company_row) in
  let has_x12_or_clearinghouse := (has_x12 || has_clearinghouse)%bool in
  create_prob <- calculate_create_probability icp icp_confidence
                   prev_customer has_x12 has_fhir has_clearinghouse
                   stack_confidence ;;
  win_prob <- calculate_win_probability icp icp_confidence
                prev_customer has_x12 has_fhir has_clearinghouse
                stack_confidence band_label ;;
  r <- sample (rng_random np) ;;
  if ge r create_prob then ret None else
  deal_id <- generate_id ;;
  owner <- sample (rng_choice np SALES_OWNERS) ;;
  x <- sample (rng_normal np (of_int 10) (of_int 7)) ;;
  offset <- int_of_float x ;;
  let created_date :=
    CompanyRow.created_date company_row + Timedelta_days offset in
  let created_date :=
    Z.max created_date (CompanyRow.created_date company_row) in
  '(base_scale, eval_mult, nego_mult) <-
    calculate_duration_scales band_label prev_customer
      has_x12_or_clearinghouse has_fhir ;;
  x1 <- sample (rng_lognormal np (dec 12 10) (dec 6 10)) ;;
  discovery_days <- days_of (mul x1 base_scale) ;;
  x2 <- sample (rng_lognormal np (dec 14 10) (dec 6 10)) ;;
  evaluation_days <- days_of (mul (mul x2 base_scale) eval_mult) ;;
  x3 <- sample (rng_lognormal np (dec 13 10) (dec 6 10)) ;;
  proposal_days <- days_of (mul x3 base_scale) ;;
  x4 <- sample (rng_lognormal np (dec 13 10) (dec 6 10)) ;;
  negotiation_days <- days_of (mul (mul x4 base_scale) nego_mult) ;;
  let discovery_date := created_date + Timedelta_days discovery_days in
  let evaluation_date := discovery_date + Timedelta_days evaluation_days in
  let proposal_date := evaluation_date + Timedelta_days proposal_days in
  let negotiation_date := proposal_date + Timedelta_days negotiation_days in
  '(leak_eval_rate, leak_prop_rate, leak_neg_rate) <-
    calculate_leakage_rates icp prev_customer has_x12_or_clearinghouse ;;
  ret (Some {| l_prev_customer := prev_customer;
               l_win_prob := win_prob;
               l_deal_id := deal_id;
               l_owner := owner;
               l_created_date := created_date;
               l_base_scale := base_scale;
               l_discovery_date := discovery_date;
               l_evaluation_date := evaluation_date;
               l_proposal_date := proposal_date;
               l_negotiation_date := negotiation_date;
               l_leak_eval_rate := leak_eval_rate;
               l_leak_prop_rate := leak_prop_rate;
               l_leak_neg_rate := leak_neg_rate |}).

(** [process_company_deal], lines 236-276: the three leakage checkpoints
    in their fixed order, the win trial, and the returned dictionary.  The
    five variables the branches assign are carried as a tuple. *)
Definition deal_outcome (company_row : Company) (l : Locals) : Py Deal :=
let discovery_date := Timestamp (l_discovery_date l) in
let evaluation_date := Timestamp (l_evaluation_date l) in
let proposal_date := Timestamp (l_proposal_date l) in
let negotiation_date := Timestamp (l_negotiation_date l) in
let closed_won_date := NaT in
let closed_lost_date := NaT in
'(evaluation_date, proposal_date, negotiation_date,
  closed_won_date, closed_lost_date) <-
  (r <- sample (rng_random np) ;;
   if lt r (l_leak_eval_rate l) then
     (* Leaked during evaluation *)
     k <- sample (rng_integers np 1 5) ;;
     let closed_lost_date :=
       Timestamp (l_discovery_date l + Timedelta_days k) in
     ret (NaT, NaT, NaT, closed_won_date, closed_lost_date)
   else
   r <- sample (rng_random np) ;;
   if lt r (l_leak_prop_rate l) then
     (* Leaked during proposal *)
     k <- sample (rng_integers np 1 7) ;;
     let closed_lost_date :=
       Timestamp (l_evaluation_date l + Timedelta_days k) in
     ret (evaluation_date, NaT, NaT, closed_won_date, closed_lost_date)
   else
   r <- sample (rng_random np) ;;
   if lt r (l_leak_neg_rate l) then
     (* Leaked during negotiation *)
     k <- sample (rng_integers np 1 10) ;;
     let closed_lost_date :=
       Timestamp (l_proposal_date l + Timedelta_days k) in
     ret (evaluation_date, proposal_date, NaT,
          closed_won_date, closed_lost_date)
   else
   (* Deal completed - determine win/loss *)
   r <- sample (rng_random np) ;;
   if lt r (l_win_prob l) then
     x <- sample (rng_lognormal np (dec 11 10) (dec 5 10)) ;;
     close_days <- days_of (mul x (l_base_scale l)) ;;
     close_days <-
       (if l_prev_customer l
        then f <- float_of_int close_days ;; days_of (mul f (dec 8 10))
        else ret close_days) ;;
     let closed_won_date :=
       Timestamp (l_negotiation_date l + Timedelta_days close_days) in
     ret (evaluation_date, proposal_date, negotiation_date,
          closed_won_date, closed_lost_date)
   else
     x <- sample (rng_lognormal np (dec 12 10) (dec 6 10)) ;;
     lose_days <- days_of (mul x (l_base_scale l)) ;;
     let closed_lost_date :=
       Timestamp (l_negotiation_date l + Timedelta_days lose_days) in
     ret (evaluation_date, proposal_date, negotiation_date,
          closed_won_date, closed_lost_date)) ;;
ret {| deal_id := l_deal_id l;
       account_id := CompanyRow.account_id company_row;
       owner := l_owner l;
       created_date := Timestamp (l_created_date l);
       stage_date_discovery := discovery_date;
       stage_date_evaluation := evaluation_date;
       stage_date_proposal := proposal_date;
       stage_date_negotiation := negotiation_date;
       stage_date_closed_won := closed_won_date;
       stage_date_closed_lost := closed_lost_date |}.

Definition process_company_deal (company_row : Company) : Py (option Deal) :=
o <- deal_schedule company_row ;;
match o with
| None => ret None
| Some l => d <- deal_outcome company_row l ;; ret (Some d)
end.

(** The loop of [main]: [deals_data] collects the deals in input order. *)
Fixpoint main_loop (companies : list Company) (deals_data : list Deal)
  : Py (list Deal) :=
match companies with
| [] => ret deals_data
| company_row :: rest =>
    deal <- process_company_deal company_row ;;
    main_loop rest
      (match deal with
       | Some d => deals_data ++ [d]
       | None => deals_data
       end)
end.

Definition main (companies : list Company) : Py (list Deal) :=
main_loop companies [].

(** One run of the script: the generator is seeded with [RNG_SEED] when the
    module is loaded, the entropy pool is whatever the system holds. *)
Definition run (entropy : os_state sys) (companies : list Company)
  : result world (list Deal) :=
main companies {| rng := default_rng np RNG_SEED; os := entropy |}.

End Script.

Arguments rng {np sys} w.
Arguments os {np sys} w.

(* ================================================================== *)
(** ** A scripted platform

    A generator that replays a prepared tape of draws, and an entropy pool
    that hands out a prepared sequence of bytes (zero bytes once the
    sequence is exhausted).  They make the script
    executable inside Rocq, for the concrete runs below. *)

Module Replay.

Record tape : Type := {
  floats : list float;
  ints : list Z
}.

Definition next_float (t : tape) : float * tape :=
  match floats t with
  | [] => (S754_zero false, t)
  | x :: r => (x, {| floats := r; ints := ints t |})
  end.

Definition next_int (t : tape) : Z * tape :=
  match ints t with
  | [] => (0, t)
  | z :: r => (z, {| floats := floats t; ints := r |})
  end.

(** The next integer of the tape, folded into [low, high). *)
Definition integers (low high : Z) (t : tape) : Z * tape :=
  let (z, t') := next_int t in
  (if low <? high then low + z mod (high - low) else low, t').

Definition choice (a : list string) (t : tape) : string * tape :=
  let (z, t') := next_int t in
  (nth (Z.to_nat (z mod Z.of_nat (List.length a))) a EmptyString, t').

(** The exponential where the scripted runs evaluate it: [exp(0.0)] is
    [1.0]; elsewhere this platform has no value to give and answers NaN. *)
Definition exp_at_zero (x : float) : float :=
  match x with
  | S754_zero _ => dec 10 10
  | _ => S754_nan
  end.

(** The generator that starts from the tape [script seed]. *)
Definition numpy (script : Z -> tape) : Numpy :=
  {| rng_state := tape;
     default_rng := script;
     rng_beta := fun _ _ => next_float;
     rng_normal := fun _ _ => next_float;
     rng_lognormal := fun _ _ => next_float;
     rng_random := next_float;
     rng_integers := integers;
     rng_choice := choice;
     np_exp := exp_at_zero |}.

Definition system : Os :=
  {| os_state := list Byte.byte;
     os_urandom := fun n pool =>
       (firstn n (pool ++ repeat Byte.x00 n), skipn n pool) |}.

(** A company of the input file: created 2025-01-01 00:00:00 UTC. *)
Definition acme : Company :=
  {| CompanyRow.account_id := "2f1c6c0e-5a3b-4c8e-9d55-0c1d2e3f4a5b"%string;
     CompanyRow.employee_band := "51-200"%string;
     CompanyRow.created_date := 1735689600 * 1000000000;
     CompanyRow.icp := true;
     CompanyRow.icp_confidence := dec 9 10;
     CompanyRow.is_prev_stedi_customer := false;
     CompanyRow.tech_stack_confidence := dec 5 10;
     CompanyRow.health_tech := Some "X12 837/835 via Availity; FHIR R4"%string |}.

(** The draws of one company, in the order the script consumes them:
    baseline and jitter of the two probabilities, the creation trial, the
    creation offset, the three duration jitters, the four stage durations,
    the three leakage baselines, then the trials given in [trials]. *)
Definition draws (trials : list float) : list float :=
  [ dec 5 10; dec 0 10; dec 5 10; dec 0 10;
    dec 1 10;
    dec 105 10;
    dec 0 10; dec 0 10; dec 0 10;
    dec 33 10; dec 41 10; dec 37 10; dec 37 10;
    dec 11 100; dec 12 100; dec 12 100 ] ++ trials.

(** The evaluation checkpoint leaks. *)
Definition leak_at_evaluation : tape :=
  {| floats := draws [ dec 1 100 ]; ints := [ 4; 2 ] |}.

(** No checkpoint leaks and the win trial succeeds. *)
Definition closed_won : tape :=
  {| floats := draws [ dec 9 10; dec 9 10; dec 9 10; dec 1 10; dec 30 10 ];
     ints := [ 4 ] |}.

Definition zeros : list Byte.byte := repeat Byte.x00 16.
Definition ones : list Byte.byte := repeat Byte.xff 16.

(** The evaluation checkpoint holds, the proposal checkpoint leaks. *)
Definition leak_at_proposal : tape :=
  {| floats := draws [ dec 9 10; dec 1 100 ]; ints := [ 4; 8 ] |}.

(** The first two checkpoints hold, the negotiation checkpoint leaks. *)
Definition leak_at_negotiation : tape :=
  {| floats := draws [ dec 9 10; dec 9 10; dec 1 100 ]; ints := [ 4; 12 ] |}.

(** Two companies: the first closes won, the second fails its creation
    trial with a draw of 0.99. *)
Definition won_then_rejected : tape :=
  {| floats := draws [ dec 9 10; dec 9 10; dec 9 10; dec 1 10; dec 30 10 ]
               ++ [ dec 5 10; dec 0 10; dec 5 10; dec 0 10; dec 99 100 ];
     ints := [ 4 ] |}.

(** One company that fails its creation trial with a draw of 0.99. *)
Definition rejected : tape :=
  {| floats := [ dec 5 10; dec 0 10; dec 5 10; dec 0 10; dec 99 100 ];
     ints := [] |}.

(** One company that passes its creation trial with a draw of 0.01. *)
Definition barely_created : tape :=
  {| floats := [ dec 5 10; dec 0 10; dec 5 10; dec 0 10; dec 1 100 ];
     ints := [] |}.

(** A baseline draw of 0.01 followed by a jitter draw of 0.0. *)
Definition low_baseline : tape :=
  {| floats := [ dec 1 100; dec 0 10 ]; ints := [] |}.

(** The scripted generator: whatever the seed, it starts on the tape
    [closed_won]. *)
Definition np : Numpy := numpy (fun _ => closed_won).

(** A world in which the generator stands at [t] and the pool holds
    [pool]. *)
Definition start (t : tape) (pool : list Byte.byte) : world np system :=
  Build_world np system t pool.

(** The world once every draw and every byte has been consumed. *)
Definition spent : world np system :=
  start {| floats := []; ints := [] |} [].

(** The record of the run on [leak_at_evaluation] with the pool [zeros]. *)
Definition leaked_deal : Deal :=
  {| deal_id := "00000000-0000-4000-8000-000000000000"%string;
     account_id := CompanyRow.account_id acme;
     owner := "Jack"%string;
     created_date := Timestamp 1736553600000000000;
     stage_date_discovery := Timestamp 1736812800000000000;
     stage_date_evaluation := NaT;
     stage_date_proposal := NaT;
     stage_date_negotiation := NaT;
     stage_date_closed_won := NaT;
     stage_date_closed_lost := Timestamp 1737072000000000000 |}.

(** The record of the run on [closed_won], with the identifier [id]. *)
Definition won_deal (id : string) : Deal :=
  {| deal_id := id;
     account_id := CompanyRow.account_id acme;
     owner := "Jack"%string;
     created_date := Timestamp 1736553600000000000;
     stage_date_discovery := Timestamp 1736812800000000000;
     stage_date_evaluation := Timestamp 1737158400000000000;
     stage_date_proposal := Timestamp 1737504000000000000;
     stage_date_negotiation := Timestamp 1737849600000000000;
     stage_date_closed_won := Timestamp 1738108800000000000;
     stage_date_closed_lost := NaT |}.

End Replay.

(* ================================================================== *)
(** ** Rounded products *)

(** The float that rounding delivers from a rounded mantissa [m] in
    [0, 2^53] at exponent [e]. *)
Definition packed (s : bool) (m e : Z) : float :=
  match m with
  | Zpos p =>
      if m =? 2 ^ 53
      then (if e + 1 <=? 971 then S754_finite s (Z.to_pos (2 ^ 52)) (e + 1)
            else S754_infinity s)
      else (if e <=? 971 then S754_finite s p e else S754_infinity s)
  | _ => S754_zero s
  end.

(** The smallest normal float times four: every float rounded at the
    smallest exponent lies below it. *)
Definition tiny : float := S754_finite false 4503599627370496 (-1072).

(** Zero, or negative. *)
Definition nonpositive (v : float) : bool :=
  match v with
  | S754_zero _ | S754_finite true _ _ | S754_infinity true => true
  | _ => false
  end.

(** The multipliers of the company without any signal, [1.0 * (0.6 +
    0.4 * 0.0)], and of the same company with the primary rail,
    [(1.0 * 1.2) * (0.6 + 0.4 * 0.0)]. *)
Definition plain_multiplier : float :=
  S754_finite false 5404319552844595 (-53).
Definition rail_multiplier : float :=
  S754_finite false 6485183463413514 (-53).

(* ================================================================== *)
(** ** Views of a deal record *)

(** The four funnel stages, in funnel order. *)
Definition stages (d : Deal) : list datetime :=
  [ stage_date_discovery d; stage_date_evaluation d;
    stage_date_proposal d; stage_date_negotiation d ].

(** The creation date followed by the four stages. *)
Definition timeline (d : Deal) : list datetime := created_date d :: stages d.

(** The record without its identifier. *)
Definition without_id (d : Deal) : Deal :=
  {| deal_id := EmptyString;
     account_id := account_id d;
     owner := owner d;
     created_date := created_date d;
     stage_date_discovery := stage_date_discovery d;
     stage_date_evaluation := stage_date_evaluation d;
     stage_date_proposal := stage_date_proposal d;
     stage_date_negotiation := stage_date_negotiation d;
     stage_date_closed_won := stage_date_closed_won d;
     stage_date_closed_lost := stage_date_closed_lost d |}.

(** What a run writes: the list of deals, when the run does not raise. *)
Definition output {W} (r : result W (list Deal)) : option (list Deal) :=
  match r with
  | Returned deals _ => Some deals
  | Raised _ => None
  end.

(** The local variables without the identifier. *)
Definition locals_without_id (l : Locals) : Locals :=
  {| l_prev_customer := l_prev_customer l;
     l_win_prob := l_win_prob l;
     l_deal_id := EmptyString;
     l_owner := l_owner l;
     l_created_date := l_created_date l;
     l_base_scale := l_base_scale l;
     l_discovery_date := l_discovery_date l;
     l_evaluation_date := l_evaluation_date l;
     l_proposal_date := l_proposal_date l;
     l_negotiation_date := l_negotiation_date l;
     l_leak_eval_rate := l_leak_eval_rate l;
     l_leak_prop_rate := l_leak_prop_rate l;
     l_leak_neg_rate := l_leak_neg_rate l |}.

(** Two results agree up to [R]: both raise, or both return, with values
    related by [R] and the generator in the same state. *)
Definition agree {np sys A} (R : A -> A -> Prop)
    (r1 r2 : result (world np sys) A) : Prop :=
  match r1, r2 with
  | Raised e1, Raised e2 => e1 = e2
  | Returned a1 w1, Returned a2 w2 => R a1 a2 /\ rng w1 = rng w2
  | _, _ => False
  end.

(** Two computations that agree whenever they start from the same
    generator state, whatever the entropy pools hold. *)
Definition seed_determined {np sys A} (R : A -> A -> Prop)
    (c1 c2 : M (world np sys) A) : Prop :=
  forall w1 w2, rng w1 = rng w2 -> agree R (c1 w1) (c2 w2).

(* ================================================================== *)
(** ** The owner draw and the order of the output *)

(** [rng.choice(a)] returns an element of a non-empty list. *)
Definition choice_from_list (np : Numpy) : Prop :=
  forall a s, a <> [] -> In (fst (rng_choice np a s)) a.

(** [l1] is [l2] with some elements left out, the order kept. *)
Inductive subsequence {A : Type} : list A -> list A -> Prop :=
| subsequence_nil : subsequence [] []
| subsequence_skip x l1 l2 : subsequence l1 l2 -> subsequence l1 (x :: l2)
| subsequence_take x l1 l2 :
    subsequence l1 l2 -> subsequence (x :: l1) (x :: l2).

(* ================================================================== *)
(** ** The report of [src/04_build_unified.py]

    The script joins the companies with the deals
    ([companies.merge(deals, on='account_id', how='left')], line 29) and
    derives three columns from each row of the join (lines 32-38).  A row
    is the deal of the company when it has one; the deal columns of a
    company without a deal are all missing. *)

(** [df['deal_id'].notna()]. *)
Definition is_opportunity (row : option Deal) : bool :=
  match row with Some _ => true | None => false end.

(** [df['stage_date_closed_won'].notna()]. *)
Definition is_customer (row : option Deal) : bool :=
  match row with
  | Some d => negb (is_null (stage_date_closed_won d))
  | None => false
  end.

(** The nested [np.where] of lines 34-38. *)
Definition outcome (row : option Deal) : string :=
  if is_customer row then "won"
  else if match row with
          | Some d => negb (is_null (stage_date_closed_lost d))
          | None => false
          end
       then "lost"
       else if is_opportunity row then "open" else "no_opp".

(** The later of two dates, a missing date giving way to the other
    ([max] with [skipna]). *)
Definition later (a b : datetime) : datetime :=
  match a, b with
  | NaT, _ => b
  | _, NaT => a
  | Timestamp x, Timestamp y => Timestamp (Z.max x y)
  end.

(** [df[stage_cols].max(axis=1)], lines 41-45: the latest of the six stage
    dates the row has, [NaT] when it has none. *)
Definition latest_stage (row : option Deal) : datetime :=
  match row with
  | Some d =>
      fold_left later
        [ stage_date_discovery d; stage_date_evaluation d;
          stage_date_proposal d; stage_date_negotiation d;
          stage_date_closed_won d; stage_date_closed_lost d ] NaT
  | None => NaT
  end.

(* ================================================================== *)
(** * Properties *)

(** ** The order of binary64 values

    [SFcompare] orders the non-NaN values by sign, exponent and mantissa;
    the facts below hold for every [spec_float], canonical or not. *)

Ltac order_cases :=
  repeat match goal with
  | |- context [Pos.compare_cont Eq ?p ?q] =>
      change (Pos.compare_cont Eq p q) with (Pos.compare p q)
  | H : context [Pos.compare_cont Eq ?p ?q] |- _ =>
      change (Pos.compare_cont Eq p q) with (Pos.compare p q) in H
  end;
  repeat match goal with
  | H : context [Z.compare ?a ?b] |- _ =>
      destruct (Z.compare_spec a b); simpl in H
  | |- context [Z.compare ?a ?b] =>
      destruct (Z.compare_spec a b); simpl
  | H : context [Pos.compare ?a ?b] |- _ =>
      destruct (Pos.compare_spec a b); simpl in H
  | |- context [Pos.compare ?a ?b] =>
      destruct (Pos.compare_spec a b); simpl
  end;
  subst; try discriminate; try reflexivity; try lia.

Ltac by_float_cases3 x y z :=
  destruct x as [[]|[]| |[] ? ?], y as [[]|[]| |[] ? ?],
           z as [[]|[]| |[] ? ?];
  simpl; try discriminate; try reflexivity; intros; order_cases.

Lemma lt_le (x y : float) : lt x y = true -> le x y = true.
Proof.
  unfold lt, le, SFltb, SFleb.
  destruct (SFcompare x y) as [[]|]; congruence.
Qed.

Lemma le_refl (x : float) : is_nan x = false -> le x x = true.
Proof.
  unfold le, SFleb.
  destruct x as [[]|[]| |[] m e]; simpl; try discriminate; auto;
    intros _; rewrite Z.compare_refl;
    change (Pos.compare_cont Eq m m) with (Pos.compare m m);
    rewrite Pos.compare_refl; reflexivity.
Qed.

Lemma lt_le_trans (x y z : float) :
  lt x y = true -> le y z = true -> lt x z = true.
Proof. unfold lt, le, SFltb, SFleb. by_float_cases3 x y z. Qed.

Lemma le_lt_trans (x y z : float) :
  le x y = true -> lt y z = true -> lt x z = true.
Proof. unfold lt, le, SFltb, SFleb. by_float_cases3 x y z. Qed.

Lemma le_trans (x y z : float) :
  le x y = true -> le y z = true -> le x z = true.
Proof. unfold le, SFleb. by_float_cases3 x y z. Qed.

Lemma not_lt_le (x y : float) :
  lt x y = false -> is_nan x = false -> is_nan y = false -> le y x = true.
Proof.
  unfold lt, le, SFltb, SFleb.
  destruct x as [[]|[]| |[] ? ?], y as [[]|[]| |[] ? ?];
    simpl; try discriminate; try reflexivity; intros; order_cases.
Qed.

Lemma lt_irrefl (x : float) : lt x x = false.
Proof.
  unfold lt, SFltb.
  destruct x as [[]|[]| |[] m e]; simpl; try reflexivity;
    rewrite Z.compare_refl;
    change (Pos.compare_cont Eq m m) with (Pos.compare m m);
    rewrite Pos.compare_refl; reflexivity.
Qed.

Lemma lt_not_nan_l (x y : float) : lt x y = true -> is_nan x = false.
Proof. destruct x; simpl; auto. Qed.

Lemma lt_not_nan_r (x y : float) : lt x y = true -> is_nan y = false.
Proof. destruct x, y; simpl; auto; discriminate. Qed.

Lemma le_not_nan_l (x y : float) : le x y = true -> is_nan x = false.
Proof. destruct x; simpl; auto. Qed.

Lemma le_not_nan_r (x y : float) : le x y = true -> is_nan y = false.
Proof. destruct x, y; simpl; auto; discriminate. Qed.

(** ** [clamp] *)

(** Whatever the value, NaN included, the result lies between the two
    bounds. *)
Lemma clamp_bounds (v lo hi : float) :
  le lo hi = true ->
  le lo (clamp v lo hi) = true /\ le (clamp v lo hi) hi = true.
Proof.
  intros Hlh.
  pose proof (le_refl lo (le_not_nan_l _ _ Hlh)) as Hlo.
  pose proof (le_refl hi (le_not_nan_r _ _ Hlh)) as Hhi.
  unfold clamp, py_max, py_min, gt.
  change SFltb with lt.
  destruct (lt v hi) eqn:Hv.
  - destruct (lt lo v) eqn:Hl; split; auto using lt_le.
  - destruct (lt lo hi); split; auto.
Qed.

(** A value at or above a floor that lies inside the interval stays at or
    above the floor; NaN is sent to the upper bound. *)
Lemma clamp_floor (v lo hi fl : float) :
  lt lo fl = true -> le fl hi = true ->
  is_nan v = true \/ le fl v = true ->
  le fl (clamp v lo hi) = true.
Proof.
  intros Hlo Hhi Hv.
  assert (Hm : le fl (py_min hi v) = true).
  { unfold py_min. destruct (lt v hi) eqn:E; auto.
    destruct Hv as [Hn|Hv]; auto.
    destruct v; simpl in *; discriminate. }
  unfold clamp, py_max, gt.
  change SFltb with lt.
  rewrite (lt_le_trans _ _ _ Hlo Hm). exact Hm.
Qed.

Lemma py_max_floor (p fl : float) :
  is_nan fl = false ->
  is_nan (py_max p fl) = true \/ le fl (py_max p fl) = true.
Proof.
  intros Hfl. unfold py_max, gt.
  change SFltb with lt.
  destruct (lt p fl) eqn:E.
  - right. now apply le_refl.
  - destruct (is_nan p) eqn:Hp; auto.
    right. now apply not_lt_le.
Qed.

(** ** The probability model *)

Ltac run_py :=
  cbv beta iota delta
    [bind ret sample generate_baseline_probability add_jitter
     calculate_create_probability calculate_win_probability
     calculate_leakage_rates calculate_duration_scales];
  repeat match goal with
  | |- context [let (_, _) := ?f ?s in _] =>
      let a := fresh "draw" in let s' := fresh "s" in
      destruct (f s) as [a s']; cbv beta iota delta [rng os]
  end.

(** C4.  For every company input and every behaviour of the generator,
    [calculate_create_probability] returns a value in [0.03, 0.97] and
    [calculate_win_probability] returns a value in [0.02, 0.98]. *)
Theorem C4_probabilities_in_clamp_interval
    (np : Numpy) (sys : Os)
    (icp : bool) (icp_confidence : float) (prev_customer : bool)
    (has_x12 has_fhir has_clearinghouse : bool) (stack_confidence : float)
    (band_label : string) (w : world np sys) :
  (exists p w',
      calculate_create_probability np sys icp icp_confidence prev_customer
        has_x12 has_fhir has_clearinghouse stack_confidence w
      = Returned p w'
      /\ le (dec 3 100) p = true /\ le p (dec 97 100) = true)
  /\
  (exists p w',
      calculate_win_probability np sys icp icp_confidence prev_customer
        has_x12 has_fhir has_clearinghouse stack_confidence band_label w
      = Returned p w'
      /\ le (dec 2 100) p = true /\ le p (dec 98 100) = true).
Proof.
  split; run_py; do 2 eexists; (split; [reflexivity|]);
    apply clamp_bounds; vm_compute; reflexivity.
Qed.

(** C5.  With the prior-customer flag set, whatever the other inputs and
    the draws, the create-probability is at least 0.85 and the
    win-probability at least 0.70. *)
Theorem C5_prior_customer_floors
    (np : Numpy) (sys : Os)
    (icp : bool) (icp_confidence : float)
    (has_x12 has_fhir has_clearinghouse : bool) (stack_confidence : float)
    (band_label : string) (w : world np sys) :
  (exists p w',
      calculate_create_probability np sys icp icp_confidence true
        has_x12 has_fhir has_clearinghouse stack_confidence w
      = Returned p w'
      /\ le (dec 85 100) p = true)
  /\
  (exists p w',
      calculate_win_probability np sys icp icp_confidence true
        has_x12 has_fhir has_clearinghouse stack_confidence band_label w
      = Returned p w'
      /\ le (dec 70 100) p = true).
Proof.
  split; run_py; do 2 eexists; (split; [reflexivity|]);
    (apply clamp_floor;
     [ vm_compute; reflexivity | vm_compute; reflexivity
     | apply py_max_floor; vm_compute; reflexivity ]).
Qed.

(** C8.  For every flag combination and every behaviour of the generator,
    [calculate_leakage_rates] returns an evaluation rate in [0.02, 0.25]
    and proposal and negotiation rates in [0.03, 0.30]. *)
Theorem C8_leakage_rates_in_range
    (np : Numpy) (sys : Os)
    (icp prev_customer has_x12_or_clearinghouse : bool)
    (w : world np sys) :
  exists leak_eval leak_prop leak_neg w',
    calculate_leakage_rates np sys icp prev_customer
      has_x12_or_clearinghouse w
    = Returned (leak_eval, leak_prop, leak_neg) w'
    /\ (le (dec 2 100) leak_eval = true /\ le leak_eval (dec 25 100) = true)
    /\ (le (dec 3 100) leak_prop = true /\ le leak_prop (dec 30 100) = true)
    /\ (le (dec 3 100) leak_neg = true /\ le leak_neg (dec 30 100) = true).
Proof.
  run_py. do 4 eexists. split; [reflexivity|].
  repeat split; apply clamp_bounds; vm_compute; reflexivity.
Qed.

(* ================================================================== *)
(** ** Reasoning about monadic code *)

Lemma bind_Returned {W A B} (c : M W A) (k : A -> M W B) w b w' :
  bind c k w = Returned b w' ->
  exists a w1, c w = Returned a w1 /\ k a w1 = Returned b w'.
Proof.
  unfold bind. destruct (c w) as [e|a w1]; [discriminate|]. eauto.
Qed.

Lemma ret_Returned {W A} (a b : A) (w w' : W) :
  ret a w = Returned b w' -> b = a /\ w' = w.
Proof. unfold ret. intros H. inversion H. auto. Qed.

(** Decompose a hypothesis [c w = Returned b w'] along the binds,
    conditionals and pattern matches of [c]. *)
Ltac inv_py H :=
  lazymatch type of H with
  | bind _ _ _ = Returned _ _ =>
      let a := fresh "v" in let w := fresh "w" in
      let H1 := fresh "Hc" in
      apply bind_Returned in H; destruct H as (a & w & H1 & H);
      inv_py H1; inv_py H
  | ret _ _ = Returned _ _ =>
      let E := fresh "Hw" in
      apply ret_Returned in H; destruct H as [H E];
      try discriminate H; try (injection H as H); subst
  | (match ?x with (_, _) => _ end) _ = Returned _ _ =>
      destruct x; inv_py H
  | (if ?b then _ else _) _ = Returned _ _ =>
      let E := fresh "Hif" in destruct b eqn:E; inv_py H
  | (match ?x with None => _ | Some _ => _ end) _ = Returned _ _ =>
      destruct x; inv_py H
  | _ => idtac
  end.

Lemma py_max_int_ge (n : Z) : 1 <= py_max_int 1 n.
Proof. unfold py_max_int. destruct (n >? 1) eqn:E; lia. Qed.

(** ** The state machine *)

Section StateMachine.

Context (np : Numpy) (sys : Os).

Lemma sample_Returned {A} (f : rng_state np -> A * rng_state np)
    (w w' : world np sys) a :
  sample np sys f w = Returned a w' ->
  a = fst (f (rng w)) /\ rng w' = snd (f (rng w)) /\ os w' = os w.
Proof.
  unfold sample. destruct (f (rng w)) as [a0 s]. intros H.
  inversion H; subst. auto.
Qed.

(** Every stage duration is floored at one day. *)
Lemma days_of_ge (x : float) (w w' : world np sys) n :
  days_of np sys x w = Returned n w' -> 1 <= n /\ w' = w.
Proof.
  unfold days_of. intros H. inv_py H.
  split; [apply py_max_int_ge|].
  destruct x; simpl in Hc; try discriminate;
    apply ret_Returned in Hc; tauto.
Qed.

Lemma close_days_ge (b : bool) n (w w' : world np sys) m :
  1 <= n ->
  (if b then f <- float_of_int n ;; days_of np sys (mul f (dec 8 10))
   else ret n) w = Returned m w' -> 1 <= m.
Proof.
  intros Hn H. destruct b; inv_py H; auto.
  apply days_of_ge in H. tauto.
Qed.

(** The stage dates computed before the checkpoints are a day apart or
    more. *)
Lemma deal_schedule_ordered c (w w' : world np sys) l :
  deal_schedule np sys c w = Returned (Some l) w' ->
  l_created_date l + NS_PER_DAY <= l_discovery_date l /\
  l_discovery_date l + NS_PER_DAY <= l_evaluation_date l /\
  l_evaluation_date l + NS_PER_DAY <= l_proposal_date l /\
  l_proposal_date l + NS_PER_DAY <= l_negotiation_date l.
Proof.
  unfold deal_schedule.
  destruct (parse_health_tech (CompanyRow.health_tech c))
    as [[has_x12 has_fhir] has_clr].
  intros H. inv_py H. simpl.
  repeat match goal with
  | H : days_of _ _ _ _ = Returned _ _ |- _ =>
      apply days_of_ge in H; destruct H as [H ?]
  end.
  unfold Timedelta_days, NS_PER_DAY. lia.
Qed.

(** The five shapes a returned record can have, one per branch of the
    checkpoint chain. *)
Lemma deal_outcome_shape c l (w w' : world np sys) d :
  deal_outcome np sys c l w = Returned d w' ->
  created_date d = Timestamp (l_created_date l) /\
  stage_date_discovery d = Timestamp (l_discovery_date l) /\
  ( (stage_date_evaluation d = NaT /\ stage_date_proposal d = NaT /\
     stage_date_negotiation d = NaT /\ stage_date_closed_won d = NaT /\
     exists t, stage_date_closed_lost d = Timestamp t)
  \/ (stage_date_evaluation d = Timestamp (l_evaluation_date l) /\
      stage_date_proposal d = NaT /\
      stage_date_negotiation d = NaT /\ stage_date_closed_won d = NaT /\
      exists t, stage_date_closed_lost d = Timestamp t)
  \/ (stage_date_evaluation d = Timestamp (l_evaluation_date l) /\
      stage_date_proposal d = Timestamp (l_proposal_date l) /\
      stage_date_negotiation d = NaT /\ stage_date_closed_won d = NaT /\
      exists t, stage_date_closed_lost d = Timestamp t)
  \/ (stage_date_evaluation d = Timestamp (l_evaluation_date l) /\
      stage_date_proposal d = Timestamp (l_proposal_date l) /\
      stage_date_negotiation d = Timestamp (l_negotiation_date l) /\
      ( (stage_date_closed_lost d = NaT /\
         exists t, stage_date_closed_won d = Timestamp t)
        \/ (stage_date_closed_won d = NaT /\
            exists t, stage_date_closed_lost d = Timestamp t)))).
Proof.
  unfold deal_outcome. intros H. inv_py H; simpl;
    (split; [reflexivity|]); (split; [reflexivity|]).
  all: first [ left; solve [eauto 10]
             | right; left; solve [eauto 10]
             | right; right; left; solve [eauto 10]
             | right; right; right; solve [eauto 10] ].
Qed.

Lemma process_company_deal_Some c (w w' : world np sys) d :
  process_company_deal np sys c w = Returned (Some d) w' ->
  exists l w1,
    deal_schedule np sys c w = Returned (Some l) w1 /\
    deal_outcome np sys c l w1 = Returned d w'.
Proof.
  unfold process_company_deal. intros H. inv_py H. eauto.
Qed.

End StateMachine.

(** C2.  Every record returned by [process_company_deal] has exactly one
    of the two terminal timestamps set: never both, never neither. *)
Theorem C2_exactly_one_terminal_timestamp
    (np : Numpy) (sys : Os) (c : Company) (w w' : world np sys) (d : Deal) :
  process_company_deal np sys c w = Returned (Some d) w' ->
  (is_null (stage_date_closed_won d) = false /\
   is_null (stage_date_closed_lost d) = true)
  \/
  (is_null (stage_date_closed_won d) = true /\
   is_null (stage_date_closed_lost d) = false).
Proof.
  intros H. apply process_company_deal_Some in H.
  destruct H as (l & w1 & _ & H).
  apply deal_outcome_shape in H.
  destruct H as (_ & _ & [H|[H|[H|H]]]).
  1-3: destruct H as (_ & _ & _ & Hw & t & Hl); rewrite Hw, Hl; auto.
  destruct H as (_ & _ & _ & [[Hl [t Hw]]|[Hw [t Hl]]]);
    rewrite Hw, Hl; auto.
Qed.

(** C3.  Left truncation: in every returned record, when the timestamp of
    a stage is null, the timestamp of every later stage is null. *)
Theorem C3_left_truncation
    (np : Numpy) (sys : Os) (c : Company) (w w' : world np sys) (d : Deal)
    (i j : nat) (later : datetime) :
  process_company_deal np sys c w = Returned (Some d) w' ->
  (i < j)%nat ->
  nth_error (stages d) i = Some NaT ->
  nth_error (stages d) j = Some later ->
  later = NaT.
Proof.
  intros H. apply process_company_deal_Some in H.
  destruct H as (l & w1 & _ & H).
  apply deal_outcome_shape in H.
  unfold stages.
  destruct H as (_ & Hd & [H|[H|[H|H]]]).
  1-3: destruct H as (He & Hp & Hn & _); rewrite Hd, He, Hp, Hn.
  4: destruct H as (He & Hp & Hn & _); rewrite Hd, He, Hp, Hn.
  all: intros Hij Hi Hj;
    destruct i as [|[|[|[|i]]]]; simpl in Hi; try discriminate;
    destruct j as [|[|[|[|j]]]]; simpl in Hj; try lia;
    try congruence;
    destruct j; discriminate.
Qed.

(** C9.  In every returned record, the non-null timestamps of the
    sequence creation, discovery, evaluation, proposal, negotiation are
    strictly increasing: a later one is at least one day after an earlier
    one. *)
Theorem C9_stage_timestamps_a_day_apart
    (np : Numpy) (sys : Os) (c : Company) (w w' : world np sys) (d : Deal)
    (i j : nat) (earlier later : Z) :
  process_company_deal np sys c w = Returned (Some d) w' ->
  (i < j)%nat ->
  nth_error (timeline d) i = Some (Timestamp earlier) ->
  nth_error (timeline d) j = Some (Timestamp later) ->
  earlier + NS_PER_DAY <= later /\ earlier < later.
Proof.
  intros H. apply process_company_deal_Some in H.
  destruct H as (l & w1 & Hs & H).
  apply deal_schedule_ordered in Hs.
  apply deal_outcome_shape in H.
  assert (0 < NS_PER_DAY) by (unfold NS_PER_DAY; lia).
  unfold timeline, stages.
  destruct H as (Hc & Hd & [H|[H|[H|H]]]).
  1-3: destruct H as (He & Hp & Hn & _); rewrite Hc, Hd, He, Hp, Hn.
  4: destruct H as (He & Hp & Hn & _); rewrite Hc, Hd, He, Hp, Hn.
  all: intros Hij Hi Hj;
    destruct i as [|[|[|[|[|i]]]]]; simpl in Hi; try discriminate;
    destruct j as [|[|[|[|[|j]]]]]; simpl in Hj; try lia;
    try discriminate;
    try (injection Hi as Hi; injection Hj as Hj; lia);
    destruct j; discriminate.
Qed.

(** C7.  When the evaluation checkpoint leaks (the draw of the first
    trial is below the evaluation leak rate), the returned record has the
    evaluation, proposal, negotiation and closed-won timestamps null, and
    its closed-lost timestamp lies strictly between the discovery
    timestamp and the discovery timestamp plus five days. *)
Theorem C7_leak_at_evaluation
    (np : Numpy) (sys : Os) (c : Company) (w w1 : world np sys)
    (l : Locals) :
  integers_in_range np ->
  deal_schedule np sys c w = Returned (Some l) w1 ->
  lt (fst (rng_random np (rng w1))) (l_leak_eval_rate l) = true ->
  exists d w2 discovery lost,
    process_company_deal np sys c w = Returned (Some d) w2
    /\ stage_date_evaluation d = NaT
    /\ stage_date_proposal d = NaT
    /\ stage_date_negotiation d = NaT
    /\ stage_date_closed_won d = NaT
    /\ stage_date_discovery d = Timestamp discovery
    /\ stage_date_closed_lost d = Timestamp lost
    /\ discovery < lost < discovery + Timedelta_days 5.
Proof.
  intros Hint Hs Hlt.
  unfold process_company_deal, bind at 1. rewrite Hs.
  unfold deal_outcome.
  cbv beta iota delta [bind sample ret].
  destruct (rng_random np (rng w1)) as [r s]. simpl in Hlt.
  cbv beta iota delta [rng os]. rewrite Hlt.
  pose proof (Hint 1 5 s ltac:(lia)) as Hk.
  destruct (rng_integers np 1 5 s) as [k s']. simpl in Hk.
  do 4 eexists. split; [reflexivity|]. simpl.
  repeat (split; [reflexivity|]).
  unfold Timedelta_days, NS_PER_DAY. lia.
Qed.

(** C10.  When none of the three checkpoints leaks, the returned record
    has its negotiation timestamp set and its terminal timestamp,
    closed-won if the draw of the win trial is below the win probability
    and closed-lost otherwise, is set and at least one day later; the
    other terminal timestamp is null. *)
Theorem C10_terminal_after_negotiation
    (np : Numpy) (sys : Os) (c : Company) (w w1 w2 : world np sys)
    (l : Locals) (d : Deal) :
  deal_schedule np sys c w = Returned (Some l) w1 ->
  let s1 := rng w1 in
  let s2 := snd (rng_random np s1) in
  let s3 := snd (rng_random np s2) in
  let s4 := snd (rng_random np s3) in
  lt (fst (rng_random np s1)) (l_leak_eval_rate l) = false ->
  lt (fst (rng_random np s2)) (l_leak_prop_rate l) = false ->
  lt (fst (rng_random np s3)) (l_leak_neg_rate l) = false ->
  process_company_deal np sys c w = Returned (Some d) w2 ->
  exists negotiation terminal,
    stage_date_negotiation d = Timestamp negotiation
    /\ (if lt (fst (rng_random np s4)) (l_win_prob l)
        then stage_date_closed_won d = Timestamp terminal
             /\ stage_date_closed_lost d = NaT
        else stage_date_closed_lost d = Timestamp terminal
             /\ stage_date_closed_won d = NaT)
    /\ negotiation + NS_PER_DAY <= terminal
    /\ negotiation < terminal.
Proof.
  intros Hs s1 s2 s3 s4 H1 H2 H3 H.
  unfold process_company_deal, bind at 1 in H. rewrite Hs in H.
  assert (0 < NS_PER_DAY) by (unfold NS_PER_DAY; lia).
  subst s1 s2 s3 s4.
  unfold deal_outcome in H. inv_py H.
  all: repeat match goal with
       | H : sample _ _ _ _ = Returned _ _ |- _ =>
           apply sample_Returned in H; destruct H as (? & ? & ?)
       end; subst;
       repeat match goal with
       | H : rng ?w = _ |- _ => rewrite H in *; clear H
       end;
       try congruence.
  all: match goal with
       | H : lt _ (l_win_prob _) = _ |- _ => rewrite H
       end.
  all: repeat match goal with
       | H : days_of _ _ _ _ = Returned _ _ |- _ =>
           apply days_of_ge in H; destruct H as [H ?]
       end;
       simpl; do 2 eexists; split; [reflexivity|];
       (split; [split; reflexivity|]);
       unfold Timedelta_days; nia.
Qed.

(** ** Scripted runs of the state machine *)

Lemma replay_integers_in_range (script : Z -> Replay.tape) :
  integers_in_range (Replay.numpy script).
Proof.
  intros low high s Hlh. simpl. unfold Replay.integers.
  destruct (Replay.next_int s) as [z s']. simpl.
  apply Z.ltb_lt in Hlh. rewrite Hlh.
  pose proof (Z.mod_pos_bound z (high - low)). lia.
Qed.

Lemma C2_exactly_one_terminal_timestamp_run :
  let d := Replay.won_deal "ffffffff-ffff-4fff-bfff-ffffffffffff" in
  process_company_deal _ _ Replay.acme
    (Replay.start Replay.closed_won Replay.ones)
  = Returned (Some d) Replay.spent
  /\ ((is_null (stage_date_closed_won d) = false /\
       is_null (stage_date_closed_lost d) = true)
      \/
      (is_null (stage_date_closed_won d) = true /\
       is_null (stage_date_closed_lost d) = false)).
Proof.
  intros d. split; [reflexivity|].
  apply (C2_exactly_one_terminal_timestamp _ _ Replay.acme
           (Replay.start Replay.closed_won Replay.ones) Replay.spent).
  reflexivity.
Defined.

Lemma C3_left_truncation_run :
  let d := Replay.leaked_deal in
  process_company_deal _ _ Replay.acme
    (Replay.start Replay.leak_at_evaluation Replay.zeros)
  = Returned (Some d) Replay.spent
  /\ (1 < 3)%nat
  /\ nth_error (stages d) 1 = Some NaT
  /\ nth_error (stages d) 3 = Some (stage_date_negotiation d)
  /\ stage_date_negotiation d = NaT.
Proof.
  intros d. split; [reflexivity|].
  split; [lia|]. split; [reflexivity|]. split; [reflexivity|].
  apply (C3_left_truncation _ _ Replay.acme
           (Replay.start Replay.leak_at_evaluation Replay.zeros)
           Replay.spent d 1%nat 3%nat);
    [reflexivity | lia | reflexivity | reflexivity].
Defined.

Lemma C9_stage_timestamps_a_day_apart_run :
  let d := Replay.won_deal "ffffffff-ffff-4fff-bfff-ffffffffffff" in
  process_company_deal _ _ Replay.acme
    (Replay.start Replay.closed_won Replay.ones)
  = Returned (Some d) Replay.spent
  /\ (0 < 4)%nat
  /\ nth_error (timeline d) 0 = Some (Timestamp 1736553600000000000)
  /\ nth_error (timeline d) 4 = Some (Timestamp 1737849600000000000)
  /\ (1736553600000000000 + NS_PER_DAY <= 1737849600000000000
      /\ 1736553600000000000 < 1737849600000000000).
Proof.
  intros d. split; [reflexivity|].
  split; [lia|]. split; [reflexivity|]. split; [reflexivity|].
  apply (C9_stage_timestamps_a_day_apart _ _ Replay.acme
           (Replay.start Replay.closed_won Replay.ones)
           Replay.spent d 0%nat 4%nat);
    [reflexivity | lia | reflexivity | reflexivity].
Defined.

Lemma C7_leak_at_evaluation_run :
  exists l w1,
    integers_in_range Replay.np
    /\ deal_schedule _ _ Replay.acme
         (Replay.start Replay.leak_at_evaluation Replay.zeros)
       = Returned (Some l) w1
    /\ lt (fst (rng_random Replay.np (rng w1))) (l_leak_eval_rate l) = true
    /\ exists d w2 discovery lost,
         process_company_deal _ _ Replay.acme
           (Replay.start Replay.leak_at_evaluation Replay.zeros)
         = Returned (Some d) w2
         /\ stage_date_evaluation d = NaT
         /\ stage_date_proposal d = NaT
         /\ stage_date_negotiation d = NaT
         /\ stage_date_closed_won d = NaT
         /\ stage_date_discovery d = Timestamp discovery
         /\ stage_date_closed_lost d = Timestamp lost
         /\ discovery < lost < discovery + Timedelta_days 5.
Proof.
  do 2 eexists.
  split; [apply replay_integers_in_range|].
  split; [vm_compute; reflexivity|].
  split; [reflexivity|].
  eapply (C7_leak_at_evaluation _ _ Replay.acme
             (Replay.start Replay.leak_at_evaluation Replay.zeros));
    [apply replay_integers_in_range | vm_compute; reflexivity
    | reflexivity].
Defined.

Lemma C10_terminal_after_negotiation_run :
  let d := Replay.won_deal "ffffffff-ffff-4fff-bfff-ffffffffffff" in
  exists l w1,
    deal_schedule _ _ Replay.acme
      (Replay.start Replay.closed_won Replay.ones) = Returned (Some l) w1
    /\ (let s1 := rng w1 in
        let s2 := snd (rng_random Replay.np s1) in
        let s3 := snd (rng_random Replay.np s2) in
        let s4 := snd (rng_random Replay.np s3) in
        lt (fst (rng_random Replay.np s1)) (l_leak_eval_rate l) = false
        /\ lt (fst (rng_random Replay.np s2)) (l_leak_prop_rate l) = false
        /\ lt (fst (rng_random Replay.np s3)) (l_leak_neg_rate l) = false
        /\ process_company_deal _ _ Replay.acme
             (Replay.start Replay.closed_won Replay.ones)
           = Returned (Some d) Replay.spent
        /\ exists negotiation terminal,
             stage_date_negotiation d = Timestamp negotiation
             /\ (if lt (fst (rng_random Replay.np s4)) (l_win_prob l)
                 then stage_date_closed_won d = Timestamp terminal
                      /\ stage_date_closed_lost d = NaT
                 else stage_date_closed_lost d = Timestamp terminal
                      /\ stage_date_closed_won d = NaT)
             /\ negotiation + NS_PER_DAY <= terminal
             /\ negotiation < terminal).
Proof.
  intros d. do 2 eexists.
  split; [vm_compute; reflexivity|].
  intros s1 s2 s3 s4.
  split; [reflexivity|].
  split; [reflexivity|].
  split; [reflexivity|].
  split; [reflexivity|].
  apply (C10_terminal_after_negotiation _ _ Replay.acme
           (Replay.start Replay.closed_won Replay.ones) _ Replay.spent
           _ d);
    reflexivity.
Defined.

(** ** Reproducibility *)

Section Reproducibility.

Context (np : Numpy) (sys : Os).
Hypothesis Hurandom : urandom_exact sys.

Let Py := M (world np sys).

Lemma determined_ret {A} (R : A -> A -> Prop) a1 a2 :
  R a1 a2 -> seed_determined R (ret a1 : Py A) (ret a2).
Proof. intros HR w1 w2 Hw. simpl. auto. Qed.

Lemma determined_raise {A} (R : A -> A -> Prop) e :
  seed_determined R (raise e : Py A) (raise e).
Proof. intros w1 w2 Hw. reflexivity. Qed.

Lemma determined_bind {A B} (R : A -> A -> Prop) (R' : B -> B -> Prop)
    (c1 c2 : Py A) (k1 k2 : A -> Py B) :
  seed_determined R c1 c2 ->
  (forall a1 a2, R a1 a2 -> seed_determined R' (k1 a1) (k2 a2)) ->
  seed_determined R' (bind c1 k1) (bind c2 k2).
Proof.
  intros Hc Hk w1 w2 Hw. unfold bind.
  specialize (Hc w1 w2 Hw). unfold agree in Hc.
  destruct (c1 w1) as [e1|a1 w1'], (c2 w2) as [e2|a2 w2']; try contradiction.
  - exact Hc.
  - destruct Hc as [HR Hw']. now apply Hk.
Qed.

Lemma determined_sample {A} (f : rng_state np -> A * rng_state np) :
  seed_determined Logic.eq (sample np sys f) (sample np sys f).
Proof.
  intros w1 w2 Hw. unfold sample. rewrite Hw.
  destruct (f (rng w2)) as [a s]. simpl. auto.
Qed.

Lemma determined_int_of_float (x : float) :
  seed_determined Logic.eq (int_of_float x : Py Z) (int_of_float x).
Proof.
  destruct x; simpl;
    first [apply determined_ret; reflexivity | apply determined_raise].
Qed.

Lemma determined_float_of_int (n : Z) :
  seed_determined Logic.eq (float_of_int n : Py float) (float_of_int n).
Proof.
  unfold float_of_int. destruct (of_int n);
    first [apply determined_ret; reflexivity | apply determined_raise].
Qed.

Lemma determined_days_of (x : float) :
  seed_determined Logic.eq (days_of np sys x) (days_of np sys x).
Proof.
  unfold days_of.
  eapply determined_bind; [apply determined_int_of_float|].
  intros ? n ->. now apply determined_ret.
Qed.

Ltac determined :=
  first
    [ apply determined_sample
    | apply determined_days_of
    | apply determined_int_of_float
    | apply determined_float_of_int
    | apply determined_ret; try reflexivity
    | apply determined_raise
    | eapply determined_bind;
        [ determined | intros ? ? ?; subst; determined ]
    | match goal with
      | |- seed_determined _ (if ?b then _ else _) (if ?b then _ else _) =>
          destruct b; determined
      | |- seed_determined _ (match ?x with (_, _) => _ end)
             (match ?x with (_, _) => _ end) =>
          destruct x; determined
      end
    | idtac ].


Lemma determined_create_probability a b c d e f g :
  seed_determined Logic.eq
    (calculate_create_probability np sys a b c d e f g)
    (calculate_create_probability np sys a b c d e f g).
Proof.
  unfold calculate_create_probability, generate_baseline_probability,
    add_jitter. determined.
Qed.

Lemma determined_win_probability a b c d e f g h :
  seed_determined Logic.eq
    (calculate_win_probability np sys a b c d e f g h)
    (calculate_win_probability np sys a b c d e f g h).
Proof.
  unfold calculate_win_probability, generate_baseline_probability,
    add_jitter. determined.
Qed.

Lemma determined_duration_scales a b c d :
  seed_determined Logic.eq
    (calculate_duration_scales np sys a b c d)
    (calculate_duration_scales np sys a b c d).
Proof. unfold calculate_duration_scales, add_jitter. determined. Qed.

Lemma determined_leakage_rates a b c :
  seed_determined Logic.eq
    (calculate_leakage_rates np sys a b c)
    (calculate_leakage_rates np sys a b c).
Proof. unfold calculate_leakage_rates. determined. Qed.

(** The identifier is the one value that the generator does not
    determine: it is read from the entropy pool. *)
Lemma generate_id_any :
  seed_determined (fun _ _ => True) (generate_id np sys) (generate_id np sys).
Proof.
  intros w1 w2 Hw.
  unfold generate_id, uuid4, os_read, bind, ret.
  pose proof (Hurandom 16%nat (os w1)) as H1.
  pose proof (Hurandom 16%nat (os w2)) as H2.
  destruct (os_urandom sys 16%nat (os w1)) as [b1 o1].
  destruct (os_urandom sys 16%nat (os w2)) as [b2 o2].
  simpl in H1, H2. rewrite H1, H2. simpl. auto.
Qed.

Lemma determined_deal_schedule c :
  seed_determined
    (fun o1 o2 => option_map locals_without_id o1
                  = option_map locals_without_id o2)
    (deal_schedule np sys c) (deal_schedule np sys c).
Proof.
  unfold deal_schedule.
  destruct (parse_health_tech (CompanyRow.health_tech c))
    as [[has_x12 has_fhir] has_clr].
  eapply determined_bind; [apply determined_create_probability|].
  intros ? create_prob ->.
  eapply determined_bind; [apply determined_win_probability|].
  intros ? win_prob ->.
  eapply determined_bind; [apply determined_sample|].
  intros ? r ->.
  destruct (ge r create_prob); [apply determined_ret; reflexivity|].
  eapply determined_bind; [apply generate_id_any|].
  intros id1 id2 _.
  eapply determined_bind; [apply determined_sample|].
  intros ? owner ->.
  eapply determined_bind; [apply determined_sample|].
  intros ? x ->.
  eapply determined_bind; [apply determined_int_of_float|].
  intros ? offset ->.
  eapply determined_bind; [apply determined_duration_scales|].
  intros ? [[base_scale eval_mult] nego_mult] ->.
  repeat (eapply determined_bind;
          [ first [apply determined_sample | apply determined_days_of]
          | intros ? ? -> ]).
  eapply determined_bind; [apply determined_leakage_rates|].
  intros ? [[leak_eval leak_prop] leak_neg] ->.
  apply determined_ret. reflexivity.
Qed.

Lemma determined_deal_outcome c l1 l2 :
  locals_without_id l1 = locals_without_id l2 ->
  seed_determined (fun d1 d2 => without_id d1 = without_id d2)
    (deal_outcome np sys c l1) (deal_outcome np sys c l2).
Proof.
  intros Hl. destruct l1, l2. unfold locals_without_id in Hl. simpl in Hl.
  injection Hl as -> -> -> -> -> -> -> -> -> -> -> ->.
  unfold deal_outcome. simpl.
  eapply determined_bind.
  - instantiate (1 := Logic.eq). determined.
  - intros ? [[[[e p] n] cw] cl] ->.
    apply determined_ret. reflexivity.
Qed.

Lemma determined_process_company_deal c :
  seed_determined
    (fun o1 o2 => option_map without_id o1 = option_map without_id o2)
    (process_company_deal np sys c) (process_company_deal np sys c).
Proof.
  unfold process_company_deal.
  eapply determined_bind; [apply determined_deal_schedule|].
  intros [l1|] [l2|] Hl; cbn [option_map] in Hl; try discriminate.
  - assert (Hl' : locals_without_id l1 = locals_without_id l2)
      by congruence.
    eapply determined_bind; [apply determined_deal_outcome, Hl'|].
    intros d1 d2 Hd. apply determined_ret. simpl. now rewrite Hd.
  - apply determined_ret. reflexivity.
Qed.

Lemma determined_main_loop companies : forall deals1 deals2,
  map without_id deals1 = map without_id deals2 ->
  seed_determined
    (fun r1 r2 => map without_id r1 = map without_id r2)
    (main_loop np sys companies deals1) (main_loop np sys companies deals2).
Proof.
  induction companies as [|c rest IH]; intros deals1 deals2 Hd; simpl.
  - now apply determined_ret.
  - eapply determined_bind; [apply determined_process_company_deal|].
    intros [d1|] [d2|] Ho; cbn [option_map] in Ho; try discriminate;
      apply IH; auto.
    assert (Ho' : without_id d1 = without_id d2) by congruence.
    rewrite !map_app. cbn [map]. now rewrite Hd, Ho'.
Qed.

End Reproducibility.

(** C1, as amended.  Two runs with the same seed on the same company list
    either both raise, or write the same deals in the same order with
    every field equal except [deal_id]. *)
Theorem C1_reproducible_up_to_deal_id
    (np : Numpy) (sys : Os) (entropy1 entropy2 : os_state sys)
    (companies : list Company) :
  urandom_exact sys ->
  option_map (map without_id) (output (run np sys entropy1 companies))
  = option_map (map without_id) (output (run np sys entropy2 companies)).
Proof.
  intros Hu. unfold run, main.
  pose proof (determined_main_loop np sys Hu companies [] [] eq_refl
                {| rng := default_rng np RNG_SEED; os := entropy1 |}
                {| rng := default_rng np RNG_SEED; os := entropy2 |}
                eq_refl) as H.
  unfold agree in H.
  destruct (main_loop np sys companies [] _) as [e1|r1 w1],
           (main_loop np sys companies [] _) as [e2|r2 w2];
    simpl; try contradiction; auto.
  destruct H as [H _]. now rewrite H.
Qed.

Lemma replay_urandom_exact : urandom_exact Replay.system.
Proof.
  intros n s. simpl. rewrite firstn_length_le; [reflexivity|].
  rewrite length_app, repeat_length. lia.
Qed.

(** C1 as stated fails: with the seed and the company list fixed, the
    identifier of the deal follows the entropy pool. *)
Lemma C1_deal_id_not_reproducible :
  output (run Replay.np Replay.system Replay.zeros [Replay.acme])
    = Some [Replay.won_deal "00000000-0000-4000-8000-000000000000"]
  /\ output (run Replay.np Replay.system Replay.ones [Replay.acme])
    = Some [Replay.won_deal "ffffffff-ffff-4fff-bfff-ffffffffffff"]
  /\ output (run Replay.np Replay.system Replay.zeros [Replay.acme])
    <> output (run Replay.np Replay.system Replay.ones [Replay.acme]).
Proof.
  assert (H0 : output (run Replay.np Replay.system Replay.zeros
                         [Replay.acme])
               = Some [Replay.won_deal
                         "00000000-0000-4000-8000-000000000000"])
    by reflexivity.
  assert (H1 : output (run Replay.np Replay.system Replay.ones
                         [Replay.acme])
               = Some [Replay.won_deal
                         "ffffffff-ffff-4fff-bfff-ffffffffffff"])
    by reflexivity.
  split; [exact H0|]. split; [exact H1|].
  rewrite H0, H1. discriminate.
Qed.

Lemma C1_reproducible_up_to_deal_id_run :
  urandom_exact Replay.system
  /\ option_map (map without_id)
       (output (run Replay.np Replay.system Replay.zeros [Replay.acme]))
     = option_map (map without_id)
         (output (run Replay.np Replay.system Replay.ones [Replay.acme])).
Proof.
  split; [exact replay_urandom_exact|].
  apply (C1_reproducible_up_to_deal_id Replay.np Replay.system
           Replay.zeros Replay.ones [Replay.acme]).
  exact replay_urandom_exact.
Defined.

(** ** Rounding of a product *)

Lemma digits2_pos_bounds (p : positive) :
  2 ^ (Zpos (digits2_pos p) - 1) <= Zpos p < 2 ^ Zpos (digits2_pos p).
Proof.
  induction p as [p IH|p IH|]; cbn [digits2_pos].
  - rewrite Pos2Z.inj_succ, Z.pow_succ_r by lia.
    replace (Z.succ (Zpos (digits2_pos p)) - 1)
      with (Z.succ (Zpos (digits2_pos p) - 1)) by lia.
    rewrite Z.pow_succ_r by lia. lia.
  - rewrite Pos2Z.inj_succ, Z.pow_succ_r by lia.
    replace (Z.succ (Zpos (digits2_pos p)) - 1)
      with (Z.succ (Zpos (digits2_pos p) - 1)) by lia.
    rewrite Z.pow_succ_r by lia. lia.
  - simpl. lia.
Qed.

Lemma shr_1_m (mrs : shr_record) :
  0 <= shr_m mrs -> shr_m (shr_1 mrs) = shr_m mrs / 2.
Proof.
  destruct mrs as [m r s]. cbn [shr_m]. intros Hm.
  destruct m as [|[p|p|]|p]; cbn [shr_1 shr_m]; try lia.
  all: first [ reflexivity
             | apply (Z.div_unique_pos _ _ _ 1);
                 [lia | apply Pos2Z.inj_xI]
             | apply (Z.div_unique_pos _ _ _ 0);
                 [lia | rewrite Z.add_0_r; apply Pos2Z.inj_xO] ].
Qed.

Lemma pow2_xI (p : positive) :
  2 ^ Zpos p~1 = 2 * (2 ^ Zpos p * 2 ^ Zpos p).
Proof.
  replace (Zpos p~1) with (1 + (Zpos p + Zpos p)) by lia.
  rewrite !Z.pow_add_r by lia. reflexivity.
Qed.

Lemma pow2_xO (p : positive) :
  2 ^ Zpos p~0 = 2 ^ Zpos p * 2 ^ Zpos p.
Proof.
  replace (Zpos p~0) with (Zpos p + Zpos p) by lia.
  rewrite !Z.pow_add_r by lia. reflexivity.
Qed.

Lemma iter_shr_1_m (p : positive) : forall mrs,
  0 <= shr_m mrs ->
  shr_m (iter_pos shr_1 p mrs) = shr_m mrs / 2 ^ Zpos p.
Proof.
  induction p as [p IH|p IH|]; intros mrs Hm; cbn [iter_pos].
  - assert (H1 : 0 <= shr_m (shr_1 mrs))
      by (rewrite shr_1_m by assumption; apply Z.div_pos; lia).
    assert (H2 : 0 <= shr_m (iter_pos shr_1 p (shr_1 mrs)))
      by (rewrite IH by assumption; apply Z.div_pos; lia).
    rewrite IH, IH, shr_1_m by assumption.
    rewrite !Z.div_div by lia. now rewrite pow2_xI.
  - assert (H2 : 0 <= shr_m (iter_pos shr_1 p mrs))
      by (rewrite IH by assumption; apply Z.div_pos; lia).
    rewrite IH, IH by assumption.
    rewrite !Z.div_div by lia. now rewrite pow2_xO.
  - rewrite shr_1_m by assumption. reflexivity.
Qed.

(** Shifting right by [n >= 0] places divides the mantissa by [2^n] and
    adds [n] to the exponent. *)
Lemma shr_m_e (m e n : Z) :
  0 <= m -> 0 <= n ->
  shr_m (fst (shr (shr_record_of_loc m loc_Exact) e n)) = m / 2 ^ n
  /\ snd (shr (shr_record_of_loc m loc_Exact) e n) = e + n.
Proof.
  intros Hm Hn. destruct n as [|p|p]; cbn [shr fst snd]; try lia.
  - cbn [shr_record_of_loc shr_m]. rewrite Z.div_1_r. split; lia.
  - rewrite iter_shr_1_m by (cbn; lia). cbn [shr_record_of_loc shr_m].
    split; reflexivity.
Qed.

Lemma round_nearest_even_bounds (m : Z) (l : location) :
  m <= round_nearest_even m l <= m + 1.
Proof.
  destruct l as [|[]]; cbn [round_nearest_even]; try lia.
  destruct (Z.even m); lia.
Qed.

Lemma shr_nonpos (mrs : shr_record) (e n : Z) :
  n <= 0 -> shr mrs e n = (mrs, e).
Proof. destruct n; cbn [shr]; intros; try reflexivity; lia. Qed.

Lemma digits2_pos_le (p : positive) (n : Z) :
  0 <= n -> Zpos p < 2 ^ n -> Zpos (digits2_pos p) <= n.
Proof.
  intros Hn Hp. pose proof (digits2_pos_bounds p) as [Hlo _].
  assert (2 ^ (Zpos (digits2_pos p) - 1) < 2 ^ n) by lia.
  apply Z.pow_lt_mono_r_iff in H; lia.
Qed.

(** Rounding a mantissa of at least 53 bits: the mantissa is divided by
    [2^k], where [k] brings it down to 53 bits or up to the smallest
    exponent, and rounded to one of the two neighbouring integers. *)
Lemma binary_round_aux_packed (s : bool) (M : positive) (E : Z) :
  53 <= Zpos (digits2_pos M) ->
  let k := Z.max (Zpos (digits2_pos M) - 53) (-1074 - E) in
  exists m,
    Zpos M / 2 ^ k <= m <= Zpos M / 2 ^ k + 1
    /\ 0 <= m <= 2 ^ 53
    /\ binary_round_aux prec emax s (Zpos M) E loc_Exact
       = packed s m (E + k).
Proof.
  intros Hd k.
  assert (Hk : 0 <= k) by (unfold k; lia).
  pose proof (digits2_pos_bounds M) as [_ HM].
  assert (Hq : 0 <= Zpos M / 2 ^ k < 2 ^ 53).
  { split; [apply Z.div_pos; lia|].
    apply Z.div_lt_upper_bound; [lia|].
    rewrite <- Z.pow_add_r by lia.
    assert (2 ^ Zpos (digits2_pos M) <= 2 ^ (k + 53))
      by (apply Z.pow_le_mono_r; unfold k; lia).
    lia. }
  unfold binary_round_aux, shr_fexp.
  replace (fexp prec emax (Zdigits2 (Zpos M) + E) - E) with k
    by (unfold fexp, SpecFloat.emin, prec, emax, k; cbn [Zdigits2]; lia).
  pose proof (shr_m_e (Zpos M) E k ltac:(lia) Hk) as [Hm He].
  destruct (shr (shr_record_of_loc (Zpos M) loc_Exact) E k) as [mrs' e'].
  cbn [fst snd] in Hm, He. subst e'.
  pose proof (round_nearest_even_bounds (shr_m mrs')
                (loc_of_shr_record mrs')) as Hr.
  set (m := round_nearest_even (shr_m mrs') (loc_of_shr_record mrs')) in *.
  rewrite Hm in Hr.
  exists m. split; [exact Hr|]. split; [lia|].
  assert (He : -1074 <= E + k) by (unfold k; lia).
  destruct m as [|p|p]; [| |lia].
  - (* the mantissa rounds to zero *)
    rewrite shr_nonpos
      by (unfold fexp, SpecFloat.emin, prec, emax; cbn [Zdigits2]; lia).
    reflexivity.
  - destruct (Z.eq_dec (Zpos p) (2 ^ 53)) as [Hp|Hp].
    + (* the mantissa rounds up to 2^53 and is renormalised *)
      assert (Hp' : p = Z.to_pos (2 ^ 53)) by lia. subst p.
      change (Zdigits2 (Zpos (Z.to_pos (2 ^ 53)))) with 54.
      replace (fexp prec emax (54 + (E + k)) - (E + k)) with 1
        by (unfold fexp, SpecFloat.emin, prec, emax; lia).
      cbn [shr iter_pos fst snd]. unfold packed.
      change (Zpos (Z.to_pos (2 ^ 53)) =? 2 ^ 53) with true.
      reflexivity.
    + assert (Hp53 : Zpos p < 2 ^ 53) by lia.
      pose proof (digits2_pos_le p 53 ltac:(lia) Hp53).
      rewrite shr_nonpos
        by (unfold fexp, SpecFloat.emin, prec, emax; cbn [Zdigits2]; lia).
      cbn [fst snd shr_record_of_loc shr_m]. unfold packed.
      apply Z.eqb_neq in Hp. rewrite Hp. reflexivity.
Qed.

Lemma digits2_pos_ge (p : positive) (n : Z) :
  2 ^ (n - 1) <= Zpos p -> n <= Zpos (digits2_pos p).
Proof.
  intros Hp. pose proof (digits2_pos_bounds p) as [_ Hhi].
  destruct (Z_lt_le_dec (Zpos (digits2_pos p)) n) as [Hlt|]; [|assumption].
  assert (2 ^ Zpos (digits2_pos p) <= 2 ^ (n - 1))
    by (apply Z.pow_le_mono_r; lia).
  lia.
Qed.

Lemma packed_tiny (m : Z) :
  0 <= m <= 2 ^ 53 -> lt (packed false m (-1074)) tiny = true.
Proof.
  intros Hm. unfold packed.
  destruct m as [|p|p]; [reflexivity| |lia].
  destruct (Zpos p =? 2 ^ 53); reflexivity.
Qed.

(** A mantissa in [2^52, 2^53] packs to the float of mantissa [n] in
    [2^52, 2^53) and exponent [E + g] that has the same value. *)
Lemma packed_normal (m E k : Z) :
  2 ^ 52 <= m <= 2 ^ 53 -> 0 <= k ->
  exists n g,
    2 ^ 52 <= Zpos n < 2 ^ 53 /\ 0 <= g
    /\ Zpos n * 2 ^ g = m * 2 ^ k
    /\ packed false m (E + k)
       = if E + g <=? 971 then S754_finite false n (E + g)
         else S754_infinity false.
Proof.
  intros Hm Hk. unfold packed.
  destruct m as [|p|p]; try lia.
  destruct (Z.eqb_spec (Zpos p) (2 ^ 53)) as [Hp|Hp].
  - exists (Z.to_pos (2 ^ 52)), (k + 1).
    split; [cbn; lia|]. split; [lia|].
    split.
    + rewrite Hp, Z.pow_add_r by lia.
      change (Zpos (Z.to_pos (2 ^ 52))) with (2 ^ 52).
      change (2 ^ 53) with (2 ^ 52 * 2). change (2 ^ 1) with 2. ring.
    + now rewrite Z.add_assoc.
  - exists p, k. repeat split; try lia.
Qed.

(** Two such floats are ordered as their values are, unless both
    overflow. *)
Lemma packed_lt (m0 m1 E k0 k1 : Z) :
  2 ^ 52 <= m0 <= 2 ^ 53 -> 2 ^ 52 <= m1 <= 2 ^ 53 ->
  0 <= k0 -> 0 <= k1 ->
  m0 * 2 ^ k0 < m1 * 2 ^ k1 ->
  lt (packed false m0 (E + k0)) (packed false m1 (E + k1)) = true
  \/ (packed false m0 (E + k0) = S754_infinity false
      /\ packed false m1 (E + k1) = S754_infinity false).
Proof.
  intros Hm0 Hm1 Hk0 Hk1 Hlt.
  destruct (packed_normal m0 E k0 Hm0 Hk0) as (n0 & g0 & Hn0 & Hg0 & Hv0 & ->).
  destruct (packed_normal m1 E k1 Hm1 Hk1) as (n1 & g1 & Hn1 & Hg1 & Hv1 & ->).
  rewrite <- Hv0, <- Hv1 in Hlt.
  assert (Hord : g0 < g1 \/ (g0 = g1 /\ Zpos n0 < Zpos n1)).
  { destruct (Z.lt_trichotomy g0 g1) as [H|[H|H]]; auto.
    - right. split; [assumption|]. subst g1.
      apply Z.mul_lt_mono_pos_r in Hlt; [assumption|].
      apply Z.pow_pos_nonneg; lia.
    - exfalso.
      replace g0 with (g1 + (g0 - g1)) in Hlt by lia.
      rewrite Z.pow_add_r in Hlt by lia.
      assert (HB : 2 ^ 1 <= 2 ^ (g0 - g1)) by (apply Z.pow_le_mono_r; lia).
      assert (HA : 0 < 2 ^ g1) by (apply Z.pow_pos_nonneg; lia).
      change (2 ^ 1) with 2 in HB.
      set (A := 2 ^ g1) in *. set (B := 2 ^ (g0 - g1)) in *.
      assert (H1 : Zpos n1 * A < 2 ^ 53 * A)
        by (apply Z.mul_lt_mono_pos_r; lia).
      assert (H2 : 2 ^ 52 * A * 2 <= Zpos n0 * A * B).
      { apply Z.mul_le_mono_nonneg; try lia.
        apply Z.mul_le_mono_nonneg_r; lia. }
      change (2 ^ 53) with (2 ^ 52 * 2) in H1. lia. }
  destruct (Z.leb_spec (E + g0) 971) as [H0|H0],
           (Z.leb_spec (E + g1) 971) as [H1|H1].
  - left. unfold lt, SFltb, SFcompare.
    destruct Hord as [Hg|[-> Hn]].
    + assert (Hc : (E + g0 ?= E + g1) = Lt) by (apply Z.compare_lt_iff; lia).
      now rewrite Hc.
    + rewrite Z.compare_refl.
      change (Pos.compare_cont Eq n0 n1) with (Pos.compare n0 n1).
      assert (Hc : (n0 ?= n1)%positive = Lt)
        by (apply Pos.compare_lt_iff; lia).
      now rewrite Hc.
  - left. reflexivity.
  - lia.
  - right. split; reflexivity.
Qed.

(** Multiplying a positive float by the larger of two constants of equal
    exponent gives the larger product, unless both products fall below
    the normal range or both overflow. *)
Lemma mul_by_larger_constant (mx : positive) (ex : Z) (a b : positive)
    (e : Z) :
  2 ^ 52 <= Zpos a -> Zpos a + 6 <= Zpos b -> Zpos b < 2 ^ 53 ->
  let p0 := mul (S754_finite false mx ex) (S754_finite false a e) in
  let p1 := mul (S754_finite false mx ex) (S754_finite false b e) in
  lt p0 p1 = true
  \/ (lt p0 tiny = true /\ lt p1 tiny = true)
  \/ (p0 = S754_infinity false /\ p1 = S754_infinity false).
Proof.
  intros Ha Hab Hb. unfold mul, SFmul. cbn [xorb].
  set (E := ex + e).
  set (X := Zpos mx). assert (HX : 1 <= X) by (unfold X; lia).
  assert (H0 : Zpos (mx * a) = X * Zpos a) by apply Pos2Z.inj_mul.
  assert (H1 : Zpos (mx * b) = X * Zpos b) by apply Pos2Z.inj_mul.
  assert (HaX : X * Zpos a < X * 2 ^ 53)
    by (apply Z.mul_lt_mono_pos_l; lia).
  assert (HabX : X * (Zpos a + 6) <= X * Zpos b)
    by (apply Z.mul_le_mono_nonneg_l; lia).
  assert (HbX : X * Zpos b < X * (2 * Zpos a))
    by (apply Z.mul_lt_mono_pos_l; lia).
  assert (HaX1 : 1 * Zpos a <= X * Zpos a)
    by (apply Z.mul_le_mono_nonneg_r; lia).
  pose proof (digits2_pos_bounds (mx * a)) as [Hd0l Hd0h].
  pose proof (digits2_pos_bounds (mx * b)) as [Hd1l Hd1h].
  set (d0 := Zpos (digits2_pos (mx * a))) in *.
  set (d1 := Zpos (digits2_pos (mx * b))) in *.
  assert (Hd0 : 53 <= d0) by (apply digits2_pos_ge; lia).
  assert (Hd01 : d0 <= d1) by (apply digits2_pos_le; lia).
  assert (Hd10 : d1 <= d0 + 1).
  { apply digits2_pos_le; [lia|].
    rewrite Z.pow_add_r by lia. change (2 ^ 1) with 2. lia. }
  destruct (binary_round_aux_packed false (mx * a) E ltac:(fold d0; lia))
    as (m0 & Hm0 & Hm0b & ->).
  destruct (binary_round_aux_packed false (mx * b) E ltac:(fold d1; lia))
    as (m1 & Hm1 & Hm1b & ->).
  fold d0 in Hm0 |- *. fold d1 in Hm1 |- *.
  destruct (Z_lt_le_dec (d0 - 53) (-1074 - E)) as [Hs|Hn].
  - (* both products are rounded at the smallest exponent *)
    right; left.
    replace (E + Z.max (d0 - 53) (-1074 - E)) with (-1074) by lia.
    replace (E + Z.max (d1 - 53) (-1074 - E)) with (-1074) by lia.
    split; now apply packed_tiny.
  - (* both products are rounded to 53 bits *)
    replace (Z.max (d0 - 53) (-1074 - E)) with (d0 - 53) in * by lia.
    replace (Z.max (d1 - 53) (-1074 - E)) with (d1 - 53) in * by lia.
    set (k0 := d0 - 53) in *. set (k1 := d1 - 53) in *.
    assert (HK0 : 0 < 2 ^ k0) by (apply Z.pow_pos_nonneg; lia).
    assert (HK1 : 0 < 2 ^ k1) by (apply Z.pow_pos_nonneg; lia).
    assert (Hp0 : 2 ^ (d0 - 1) = 2 ^ 52 * 2 ^ k0)
      by (rewrite <- Z.pow_add_r by lia; f_equal; lia).
    assert (Hp1 : 2 ^ (d1 - 1) = 2 ^ 52 * 2 ^ k1)
      by (rewrite <- Z.pow_add_r by lia; f_equal; lia).
    assert (HK01 : 2 ^ k1 <= 2 * 2 ^ k0).
    { assert (H : 2 ^ k1 <= 2 ^ (k0 + 1))
        by (apply Z.pow_le_mono_r; lia).
      rewrite Z.pow_add_r in H by lia. change (2 ^ 1) with 2 in H. lia. }
    assert (Hq0 : 2 ^ 52 <= Zpos (mx * a) / 2 ^ k0)
      by (apply Z.div_le_lower_bound; lia).
    assert (Hq1 : 2 ^ 52 <= Zpos (mx * b) / 2 ^ k1)
      by (apply Z.div_le_lower_bound; lia).
    pose proof (Z.mul_div_le (Zpos (mx * a)) (2 ^ k0) HK0) as Hf0.
    pose proof (Z.mul_succ_div_gt (Zpos (mx * b)) (2 ^ k1) HK1) as Hc1.
    cut (m0 * 2 ^ k0 < m1 * 2 ^ k1).
    { intros Hlt.
      destruct (packed_lt m0 m1 E k0 k1) as [H|H]; try lia; auto. }
    set (K0 := 2 ^ k0) in *. set (K1 := 2 ^ k1) in *.
    set (q0 := Zpos (mx * a) / K0) in *.
    set (q1 := Zpos (mx * b) / K1) in *.
    assert (Hl : m0 * K0 <= (q0 + 1) * K0)
      by (apply Z.mul_le_mono_nonneg_r; lia).
    assert (Hr : q1 * K1 <= m1 * K1)
      by (apply Z.mul_le_mono_nonneg_r; lia).
    change (2 ^ 53) with (2 * 2 ^ 52) in HaX.
    lia.
Qed.

Lemma lt_trans (x y z : float) :
  lt x y = true -> lt y z = true -> lt x z = true.
Proof. intros H1 H2. eapply lt_le_trans; eauto using lt_le. Qed.

Lemma lt_asym (x y : float) : lt x y = true -> lt y x = false.
Proof.
  intros H. destruct (lt y x) eqn:E; [|reflexivity].
  pose proof (lt_trans _ _ _ H E) as Hxx.
  now rewrite lt_irrefl in Hxx.
Qed.

(** ** Monotonicity of [clamp] *)

Lemma clamp_below (v lo hi : float) :
  lt v lo = true -> lt lo hi = true -> clamp v lo hi = lo.
Proof.
  intros Hv Hlh. unfold clamp, py_max, py_min, gt. change SFltb with lt.
  rewrite (lt_trans _ _ _ Hv Hlh), (lt_asym _ _ Hv). reflexivity.
Qed.

Lemma clamp_nonpositive (v : float) :
  nonpositive v = true ->
  clamp v (dec 3 100) (dec 97 100) = dec 3 100.
Proof.
  destruct v as [[]|[]| |[] m e]; try discriminate; intros _;
    vm_compute; reflexivity.
Qed.

Lemma clamp_lt (a b lo hi : float) :
  lt lo hi = true -> lt a b = true ->
  le (clamp a lo hi) (clamp b lo hi) = true
  /\ (lt lo (clamp b lo hi) = true -> lt (clamp a lo hi) hi = true ->
      lt (clamp a lo hi) (clamp b lo hi) = true).
Proof.
  intros Hlh Hab.
  pose proof (le_refl lo (lt_not_nan_l _ _ Hlh)) as Hlo.
  pose proof (le_refl hi (lt_not_nan_r _ _ Hlh)) as Hhi.
  unfold clamp, py_max, py_min, gt. change SFltb with lt.
  destruct (lt a hi) eqn:Ea, (lt b hi) eqn:Eb.
  - destruct (lt lo a) eqn:La, (lt lo b) eqn:Lb.
    + split; auto using lt_le.
    + rewrite (lt_trans _ _ _ La Hab) in Lb. discriminate.
    + rewrite Lb. split; auto using lt_le.
    + rewrite lt_irrefl. split; [assumption|discriminate].
  - rewrite Hlh.
    destruct (lt lo a) eqn:La; rewrite ?Hlh; split; auto using lt_le.
  - rewrite (lt_trans _ _ _ Hab Eb) in Ea. discriminate.
  - rewrite Hlh, lt_irrefl. split; [assumption|discriminate].
Qed.

Lemma packed_true_nonpositive (m e : Z) : nonpositive (packed true m e) = true.
Proof.
  unfold packed. destruct m as [|p|p]; try reflexivity.
  destruct (Zpos p =? 2 ^ 53), (e + 1 <=? 971), (e <=? 971); reflexivity.
Qed.

(** ** The rail boost *)

Lemma rail_boost_up_to_clamp (x : float) :
  let p0 := clamp (mul x plain_multiplier) (dec 3 100) (dec 97 100) in
  let p1 := clamp (mul x rail_multiplier) (dec 3 100) (dec 97 100) in
  le p0 p1 = true
  /\ (lt (dec 3 100) p1 = true -> lt p0 (dec 97 100) = true ->
      lt p0 p1 = true).
Proof.
  assert (Hlh : lt (dec 3 100) (dec 97 100) = true)
    by (vm_compute; reflexivity).
  assert (Hlo : le (dec 3 100) (dec 3 100) = true)
    by (vm_compute; reflexivity).
  assert (Hhi : le (dec 97 100) (dec 97 100) = true)
    by (vm_compute; reflexivity).
  assert (Htiny : lt tiny (dec 3 100) = true)
    by (vm_compute; reflexivity).
  assert (Hinf : clamp (S754_infinity false) (dec 3 100) (dec 97 100)
                 = dec 97 100)
    by (vm_compute; reflexivity).
  destruct x as [s|s| |s mx ex].
  - (* a zero baseline: both products are zero *)
    destruct s; cbv zeta; cbn [mul SFmul plain_multiplier rail_multiplier];
      rewrite !clamp_nonpositive by reflexivity;
      rewrite lt_irrefl; (split; [exact Hlo|intros H; discriminate H]).
  - (* an infinite baseline: both products are the same infinity *)
    destruct s; cbv zeta; cbn [mul SFmul plain_multiplier rail_multiplier xorb].
    + rewrite !clamp_nonpositive by reflexivity.
      rewrite lt_irrefl. split; [exact Hlo|intros H; discriminate H].
    + rewrite Hinf, lt_irrefl. split; [exact Hhi|intros _ H; discriminate H].
  - (* NaN: both products are NaN, which clamp sends to the upper bound *)
    cbv zeta; cbn [mul SFmul plain_multiplier rail_multiplier].
    replace (clamp S754_nan (dec 3 100) (dec 97 100)) with (dec 97 100)
      by (vm_compute; reflexivity).
    rewrite lt_irrefl. split; [exact Hhi|intros _ H; discriminate H].
  - destruct s.
    + (* a negative baseline: both products clamp to the lower bound *)
      cbv zeta. unfold mul, SFmul, plain_multiplier, rail_multiplier.
      cbn [xorb].
      destruct (binary_round_aux_packed true (mx * 5404319552844595)
                  (ex + -53)) as (m0 & _ & _ & ->).
      { apply digits2_pos_ge. rewrite Pos2Z.inj_mul. lia. }
      destruct (binary_round_aux_packed true (mx * 6485183463413514)
                  (ex + -53)) as (m1 & _ & _ & ->).
      { apply digits2_pos_ge. rewrite Pos2Z.inj_mul. lia. }
      rewrite !clamp_nonpositive by apply packed_true_nonpositive.
      rewrite lt_irrefl. split; [exact Hlo|intros H; discriminate H].
    + cbv zeta.
      destruct (mul_by_larger_constant mx ex 5404319552844595
                  6485183463413514 (-53) ltac:(lia) ltac:(lia) ltac:(lia))
        as [H|[[H0 H1]|[H0 H1]]].
      * apply clamp_lt; [exact Hlh|exact H].
      * unfold plain_multiplier, rail_multiplier.
        rewrite !clamp_below
          by first [exact Hlh | eapply lt_trans; [eassumption|exact Htiny]].
        rewrite lt_irrefl. split; [exact Hlo|intros H; discriminate H].
      * unfold plain_multiplier, rail_multiplier. rewrite H0, H1, Hinf.
        rewrite lt_irrefl. split; [exact Hhi|intros _ H; discriminate H].
Qed.

Lemma plain_multiplier_eq :
  mul (dec 10 10) (add (dec 6 10) (mul (dec 4 10) (S754_zero false)))
  = plain_multiplier.
Proof. vm_compute. reflexivity. Qed.

Lemma rail_multiplier_eq :
  mul (mul (dec 10 10) X12_CLR_MULT)
      (add (dec 6 10) (mul (dec 4 10) (S754_zero false)))
  = rail_multiplier.
Proof. vm_compute. reflexivity. Qed.

(** C6, as amended.  With the draws fixed, the create-probability of a
    company with no rail signal, no ideal-customer-profile flag, zero
    stack confidence and no prior-customer flag is never above that of
    the same company with the primary rail, and it is strictly below it
    whenever the latter is above the lower bound 0.03 of the clamp and
    the former below its upper bound 0.97. *)
Theorem C6_rail_boost_up_to_clamp
    (np : Numpy) (sys : Os) (icp_confidence : float) (sign : bool)
    (w : world np sys) :
  exists p0 p1 w',
    calculate_create_probability np sys false icp_confidence false
      false false false (S754_zero sign) w = Returned p0 w'
    /\ calculate_create_probability np sys false icp_confidence false
         true false false (S754_zero sign) w = Returned p1 w'
    /\ le p0 p1 = true
    /\ (lt (dec 3 100) p1 = true -> lt p0 (dec 97 100) = true ->
        lt p0 p1 = true).
Proof.
  run_py. do 3 eexists.
  split; [reflexivity|]. split; [reflexivity|].
  cbv zeta. cbn [orb].
  replace (or_zero (S754_zero sign)) with (S754_zero false)
    by (destruct sign; reflexivity).
  rewrite plain_multiplier_eq, rail_multiplier_eq.
  apply rail_boost_up_to_clamp.
Qed.

(** C6 as stated fails: with a baseline draw of 0.01 and a jitter of
    [exp(0.0) = 1.0], both companies get the lower bound of the clamp. *)
Lemma C6_rail_boost_lost_in_clamp :
  calculate_create_probability Replay.np Replay.system false (dec 0 10)
    false false false false (dec 0 10) (Replay.start Replay.low_baseline [])
  = Returned (dec 3 100) Replay.spent
  /\ calculate_create_probability Replay.np Replay.system false (dec 0 10)
       false true false false (dec 0 10) (Replay.start Replay.low_baseline [])
     = Returned (dec 3 100) Replay.spent
  /\ lt (dec 3 100) (dec 3 100) = false.
Proof. repeat split; vm_compute; reflexivity. Qed.

(* ================================================================== *)
(** * Further properties of the script *)

(** ** Band multipliers *)

(** A label that is not a key of the table gets the neutral multiplier
    1.0. *)
Theorem get_band_multiplier_unknown_label
    (band_label : string) (multiplier_dict : list (string * float)) :
  (forall v, ~ In (band_label, v) multiplier_dict) ->
  get_band_multiplier band_label multiplier_dict = dec 10 10.
Proof.
  unfold get_band_multiplier.
  induction multiplier_dict as [|[k v] rest IH]; intros Hno; cbn [dict_get].
  - reflexivity.
  - destruct (String.eqb_spec k band_label) as [->|Hk].
    + exfalso. apply (Hno v). left. reflexivity.
    + apply IH. intros v' Hin. apply (Hno v'). right. exact Hin.
Qed.

Lemma get_band_multiplier_unknown_label_run :
  (forall v, ~ In ("1-1"%string, v) WIN_MULT_BY_BAND)
  /\ get_band_multiplier "1-1" WIN_MULT_BY_BAND = dec 10 10.
Proof.
  assert (H : forall v, ~ In ("1-1"%string, v) WIN_MULT_BY_BAND).
  { intros v Hin. unfold WIN_MULT_BY_BAND in Hin. cbn [In] in Hin.
    repeat (destruct Hin as [Hin|Hin]; [discriminate Hin|]).
    exact Hin. }
  split; [exact H|].
  apply (get_band_multiplier_unknown_label "1-1" WIN_MULT_BY_BAND H).
Defined.

(** Whatever the label, known or not, the win multiplier lies in
    [0.88, 1.0] and the duration multiplier in [0.90, 1.45]. *)
Theorem get_band_multiplier_bounds (band_label : string) :
  (le (dec 88 100) (get_band_multiplier band_label WIN_MULT_BY_BAND) = true
   /\ le (get_band_multiplier band_label WIN_MULT_BY_BAND) (dec 100 100)
      = true)
  /\
  (le (dec 90 100) (get_band_multiplier band_label DURATION_BY_BAND) = true
   /\ le (get_band_multiplier band_label DURATION_BY_BAND) (dec 145 100)
      = true).
Proof.
  unfold get_band_multiplier, WIN_MULT_BY_BAND, DURATION_BY_BAND.
  cbn [dict_get].
  repeat match goal with
  | |- context [String.eqb ?k band_label] =>
      destruct (String.eqb k band_label)
  end;
  (split; split; vm_compute; reflexivity).
Qed.

(** ** [clamp] as a function *)

Lemma compare_eq_cong (a b c : float) :
  SFcompare a b = Some Eq ->
  SFcompare a c = SFcompare b c /\ SFcompare c a = SFcompare c b.
Proof.
  destruct a as [[]|[]| |[] ? ?], b as [[]|[]| |[] ? ?],
           c as [[]|[]| |[] ? ?];
    simpl; intros Heq; try discriminate; split; try reflexivity;
    order_cases.
Qed.

(** [clamp] is idempotent: clamping a clamped value changes nothing. *)
Theorem clamp_idempotent (value min_val max_val : float) :
  lt min_val max_val = true ->
  clamp (clamp value min_val max_val) min_val max_val
  = clamp value min_val max_val.
Proof.
  intros Hlh. unfold clamp, py_max, py_min, gt. change SFltb with lt.
  destruct (lt value max_val) eqn:Hv.
  - destruct (lt min_val value) eqn:Hl.
    + now rewrite Hv, Hl.
    + now rewrite Hlh, lt_irrefl.
  - now rewrite Hlh, lt_irrefl, Hlh.
Qed.

Lemma clamp_idempotent_run :
  lt (dec 3 100) (dec 97 100) = true
  /\ clamp (clamp (dec 25 10) (dec 3 100) (dec 97 100))
       (dec 3 100) (dec 97 100)
     = clamp (dec 25 10) (dec 3 100) (dec 97 100).
Proof.
  split; [vm_compute; reflexivity|].
  apply clamp_idempotent. vm_compute. reflexivity.
Defined.

(** [clamp] is monotone: it never reverses the order of two values. *)
Theorem clamp_monotone (a b min_val max_val : float) :
  lt min_val max_val = true -> le a b = true ->
  le (clamp a min_val max_val) (clamp b min_val max_val) = true.
Proof.
  intros Hlh Hab.
  destruct (lt a b) eqn:Hlt.
  - now apply clamp_lt.
  - assert (Heq : SFcompare a b = Some Eq).
    { unfold le, SFleb in Hab. unfold lt, SFltb in Hlt.
      destruct (SFcompare a b) as [[]|]; congruence. }
    destruct (compare_eq_cong a b max_val Heq) as [H1 _].
    destruct (compare_eq_cong a b min_val Heq) as [_ H2].
    pose proof (le_refl min_val (lt_not_nan_l _ _ Hlh)) as Hlo.
    pose proof (le_refl max_val (lt_not_nan_r _ _ Hlh)) as Hhi.
    assert (Ea : lt a max_val = lt b max_val)
      by (unfold lt, SFltb; now rewrite H1).
    assert (El : lt min_val a = lt min_val b)
      by (unfold lt, SFltb; now rewrite H2).
    unfold clamp, py_max, py_min, gt. change SFltb with lt.
    rewrite Ea. destruct (lt b max_val).
    + rewrite El. destruct (lt min_val b); auto.
    + rewrite Hlh. auto.
Qed.

Lemma clamp_monotone_run :
  lt (dec 3 100) (dec 97 100) = true /\ le (dec 1 100) (dec 2 100) = true
  /\ le (clamp (dec 1 100) (dec 3 100) (dec 97 100))
        (clamp (dec 2 100) (dec 3 100) (dec 97 100)) = true.
Proof.
  split; [vm_compute; reflexivity|]. split; [vm_compute; reflexivity|].
  apply clamp_monotone; vm_compute; reflexivity.
Defined.

(** ** Prior customers *)

Lemma clamp_py_max (p fl lo hi : float) :
  lt lo hi = true ->
  le (clamp p lo hi) (clamp (py_max p fl) lo hi) = true.
Proof.
  intros Hlh. unfold py_max, gt. change SFltb with lt.
  destruct (lt p fl) eqn:E.
  - now apply clamp_lt.
  - apply le_refl.
    destruct (clamp_bounds p lo hi (lt_le _ _ Hlh)) as [H _].
    exact (le_not_nan_r _ _ H).
Qed.

(** With the draws and every other input fixed, setting the
    prior-customer flag never lowers the create-probability nor the
    win-probability. *)
Theorem prior_customer_never_lowers_probability
    (np : Numpy) (sys : Os)
    (icp : bool) (icp_confidence : float)
    (has_x12 has_fhir has_clearinghouse : bool) (stack_confidence : float)
    (band_label : string) (w : world np sys) :
  (exists p0 p1 w',
      calculate_create_probability np sys icp icp_confidence false
        has_x12 has_fhir has_clearinghouse stack_confidence w
      = Returned p0 w'
      /\ calculate_create_probability np sys icp icp_confidence true
           has_x12 has_fhir has_clearinghouse stack_confidence w
         = Returned p1 w'
      /\ le p0 p1 = true)
  /\
  (exists p0 p1 w',
      calculate_win_probability np sys icp icp_confidence false
        has_x12 has_fhir has_clearinghouse stack_confidence band_label w
      = Returned p0 w'
      /\ calculate_win_probability np sys icp icp_confidence true
           has_x12 has_fhir has_clearinghouse stack_confidence band_label w
         = Returned p1 w'
      /\ le p0 p1 = true).
Proof.
  split; run_py; do 3 eexists;
    (split; [reflexivity|]); (split; [reflexivity|]);
    apply clamp_py_max; vm_compute; reflexivity.
Qed.

(** ** The creation trial *)

Lemma lt_not_ge (a b : float) : lt a b = true -> ge a b = false.
Proof.
  intros H. unfold ge. change (SFleb b a) with (le b a).
  destruct (le b a) eqn:E; [|reflexivity].
  pose proof (lt_le_trans _ _ _ H E) as Haa.
  now rewrite lt_irrefl in Haa.
Qed.

Lemma create_probability_range
    (np : Numpy) (sys : Os) a b c d e f g (w w' : world np sys) p :
  calculate_create_probability np sys a b c d e f g w = Returned p w' ->
  le (dec 3 100) p = true /\ le p (dec 97 100) = true.
Proof.
  unfold calculate_create_probability. intros H. inv_py H.
  apply clamp_bounds. vm_compute. reflexivity.
Qed.

(** No company is certain to get a deal: whatever its attributes and the
    earlier draws, a uniform draw of 0.97 or more at the creation trial
    makes [process_company_deal] return [None]. *)
Theorem high_draw_creates_no_deal
    (np : Numpy) (sys : Os) (c : Company) (w w1 w2 : world np sys)
    (has_x12 has_fhir has_clearinghouse : bool)
    (create_prob win_prob : float) :
  parse_health_tech (CompanyRow.health_tech c)
  = (has_x12, has_fhir, has_clearinghouse) ->
  calculate_create_probability np sys (CompanyRow.icp c)
    (or_zero (CompanyRow.icp_confidence c))
    (CompanyRow.is_prev_stedi_customer c)
    has_x12 has_fhir has_clearinghouse
    (or_zero (CompanyRow.tech_stack_confidence c)) w
  = Returned create_prob w1 ->
  calculate_win_probability np sys (CompanyRow.icp c)
    (or_zero (CompanyRow.icp_confidence c))
    (CompanyRow.is_prev_stedi_customer c)
    has_x12 has_fhir has_clearinghouse
    (or_zero (CompanyRow.tech_stack_confidence c))
    (CompanyRow.employee_band c) w1
  = Returned win_prob w2 ->
  le (dec 97 100) (fst (rng_random np (rng w2))) = true ->
  exists w3, process_company_deal np sys c w = Returned None w3.
Proof.
  intros Hparse Hcp Hwp Hr.
  pose proof (create_probability_range _ _ _ _ _ _ _ _ _ _ _ _ Hcp)
    as [_ Hhi].
  assert (Hge : ge (fst (rng_random np (rng w2))) create_prob = true)
    by (unfold ge; exact (le_trans _ _ _ Hhi Hr)).
  unfold process_company_deal, deal_schedule. rewrite Hparse.
  unfold bind at 1 2. rewrite Hcp.
  unfold bind at 1. rewrite Hwp.
  unfold bind at 1, sample.
  destruct (rng_random np (rng w2)) as [r s]. cbn [fst] in Hge.
  rewrite Hge. cbv beta iota delta [ret]. eauto.
Qed.

Lemma high_draw_creates_no_deal_run :
  exists create_prob win_prob w1 w2,
    parse_health_tech (CompanyRow.health_tech Replay.acme)
    = (true, true, true)
    /\ calculate_create_probability Replay.np Replay.system true
         (or_zero (dec 9 10)) false true true true (or_zero (dec 5 10))
         (Replay.start Replay.rejected [])
       = Returned create_prob w1
    /\ calculate_win_probability Replay.np Replay.system true
         (or_zero (dec 9 10)) false true true true (or_zero (dec 5 10))
         "51-200" w1
       = Returned win_prob w2
    /\ le (dec 97 100) (fst (rng_random Replay.np (rng w2))) = true
    /\ exists w3,
         process_company_deal _ _ Replay.acme
           (Replay.start Replay.rejected [])
         = Returned None w3.
Proof.
  do 4 eexists.
  split; [vm_compute; reflexivity|].
  split; [vm_compute; reflexivity|].
  split; [vm_compute; reflexivity|].
  split; [vm_compute; reflexivity|].
  refine (high_draw_creates_no_deal Replay.np Replay.system Replay.acme
            (Replay.start Replay.rejected []) _ _ true true true _ _
            _ _ _ _).
  - vm_compute; reflexivity.
  - vm_compute; reflexivity.
  - vm_compute; reflexivity.
  - vm_compute; reflexivity.
Defined.

(** No company is certain to be passed over: whatever its attributes and
    the earlier draws, a uniform draw below 0.03 at the creation trial
    keeps [process_company_deal] from returning [None]. *)
Theorem low_draw_is_not_rejected
    (np : Numpy) (sys : Os) (c : Company) (w w1 w2 w3 : world np sys)
    (has_x12 has_fhir has_clearinghouse : bool)
    (create_prob win_prob : float) :
  parse_health_tech (CompanyRow.health_tech c)
  = (has_x12, has_fhir, has_clearinghouse) ->
  calculate_create_probability np sys (CompanyRow.icp c)
    (or_zero (CompanyRow.icp_confidence c))
    (CompanyRow.is_prev_stedi_customer c)
    has_x12 has_fhir has_clearinghouse
    (or_zero (CompanyRow.tech_stack_confidence c)) w
  = Returned create_prob w1 ->
  calculate_win_probability np sys (CompanyRow.icp c)
    (or_zero (CompanyRow.icp_confidence c))
    (CompanyRow.is_prev_stedi_customer c)
    has_x12 has_fhir has_clearinghouse
    (or_zero (CompanyRow.tech_stack_confidence c))
    (CompanyRow.employee_band c) w1
  = Returned win_prob w2 ->
  lt (fst (rng_random np (rng w2))) (dec 3 100) = true ->
  process_company_deal np sys c w <> Returned None w3.
Proof.
  intros Hparse Hcp Hwp Hr H.
  pose proof (create_probability_range _ _ _ _ _ _ _ _ _ _ _ _ Hcp)
    as [Hlo _].
  assert (Hge : ge (fst (rng_random np (rng w2))) create_prob = false)
    by (apply lt_not_ge; exact (lt_le_trans _ _ _ Hr Hlo)).
  unfold process_company_deal, deal_schedule in H. rewrite Hparse in H.
  apply bind_Returned in H. destruct H as (o & w4 & H & Ho).
  apply bind_Returned in H. destruct H as (cp' & w1' & Hcp' & H).
  rewrite Hcp in Hcp'. injection Hcp' as <- <-.
  apply bind_Returned in H. destruct H as (wp' & w2' & Hwp' & H).
  rewrite Hwp in Hwp'. injection Hwp' as <- <-.
  apply bind_Returned in H. destruct H as (r' & w5 & Hr' & H).
  apply sample_Returned in Hr'. destruct Hr' as (-> & _ & _).
  rewrite Hge in H.
  destruct o as [l|].
  - inv_py Ho.
  - inv_py H.
Qed.

Lemma low_draw_is_not_rejected_run :
  exists create_prob win_prob w1 w2,
    parse_health_tech (CompanyRow.health_tech Replay.acme)
    = (true, true, true)
    /\ calculate_create_probability Replay.np Replay.system true
         (or_zero (dec 9 10)) false true true true (or_zero (dec 5 10))
         (Replay.start Replay.barely_created [])
       = Returned create_prob w1
    /\ calculate_win_probability Replay.np Replay.system true
         (or_zero (dec 9 10)) false true true true (or_zero (dec 5 10))
         "51-200" w1
       = Returned win_prob w2
    /\ lt (fst (rng_random Replay.np (rng w2))) (dec 3 100) = true
    /\ process_company_deal _ _ Replay.acme
         (Replay.start Replay.barely_created [])
       <> Returned None Replay.spent.
Proof.
  do 4 eexists.
  split; [vm_compute; reflexivity|].
  split; [vm_compute; reflexivity|].
  split; [vm_compute; reflexivity|].
  split; [vm_compute; reflexivity|].
  refine (low_draw_is_not_rejected Replay.np Replay.system Replay.acme
            (Replay.start Replay.barely_created []) _ _ Replay.spent
            true true true _ _ _ _ _ _).
  - vm_compute; reflexivity.
  - vm_compute; reflexivity.
  - vm_compute; reflexivity.
  - vm_compute; reflexivity.
Defined.

(** ** The record of a company *)

Section Record.

Context (np : Numpy) (sys : Os).

Lemma deal_schedule_created c (w w' : world np sys) l :
  deal_schedule np sys c w = Returned (Some l) w' ->
  CompanyRow.created_date c <= l_created_date l.
Proof.
  unfold deal_schedule.
  destruct (parse_health_tech (CompanyRow.health_tech c))
    as [[has_x12 has_fhir] has_clr].
  intros H. inv_py H. simpl. lia.
Qed.

Lemma deal_schedule_owner c (w w' : world np sys) l :
  deal_schedule np sys c w = Returned (Some l) w' ->
  exists s, l_owner l = fst (rng_choice np SALES_OWNERS s).
Proof.
  unfold deal_schedule.
  destruct (parse_health_tech (CompanyRow.health_tech c))
    as [[has_x12 has_fhir] has_clr].
  intros H. inv_py H. simpl.
  match goal with
  | H : sample _ _ (rng_choice _ _) _ = Returned _ _ |- _ =>
      apply sample_Returned in H; destruct H as (-> & _ & _)
  end.
  eauto.
Qed.

Lemma deal_outcome_fields c l (w w' : world np sys) d :
  deal_outcome np sys c l w = Returned d w' ->
  deal_id d = l_deal_id l
  /\ account_id d = CompanyRow.account_id c
  /\ owner d = l_owner l.
Proof.
  unfold deal_outcome. intros H. inv_py H; simpl; auto.
Qed.

Lemma process_company_deal_account c (w w' : world np sys) d :
  process_company_deal np sys c w = Returned (Some d) w' ->
  account_id d = CompanyRow.account_id c.
Proof.
  intros H. apply process_company_deal_Some in H.
  destruct H as (l & w1 & _ & Ho).
  apply deal_outcome_fields in Ho. tauto.
Qed.

End Record.

(** Every record carries the identifier of its company, and a creation
    date that is a timestamp not earlier than the creation date of the
    company. *)
Theorem deal_belongs_to_company
    (np : Numpy) (sys : Os) (c : Company) (w w' : world np sys) (d : Deal) :
  process_company_deal np sys c w = Returned (Some d) w' ->
  account_id d = CompanyRow.account_id c
  /\ exists t, created_date d = Timestamp t
               /\ CompanyRow.created_date c <= t.
Proof.
  intros H. pose proof (process_company_deal_account _ _ _ _ _ _ H) as Ha.
  apply process_company_deal_Some in H.
  destruct H as (l & w1 & Hs & Ho).
  apply deal_schedule_created in Hs.
  apply deal_outcome_shape in Ho. destruct Ho as (Hc & _).
  split; [exact Ha|]. eauto.
Qed.

Lemma deal_belongs_to_company_run :
  let d := Replay.won_deal "ffffffff-ffff-4fff-bfff-ffffffffffff" in
  process_company_deal _ _ Replay.acme
    (Replay.start Replay.closed_won Replay.ones)
  = Returned (Some d) Replay.spent
  /\ account_id d = CompanyRow.account_id Replay.acme
  /\ exists t, created_date d = Timestamp t
               /\ CompanyRow.created_date Replay.acme <= t.
Proof.
  intros d. split; [reflexivity|].
  apply (deal_belongs_to_company _ _ Replay.acme
           (Replay.start Replay.closed_won Replay.ones) Replay.spent).
  reflexivity.
Defined.

(** The owner of every record is a member of the roster. *)
Theorem owner_in_roster
    (np : Numpy) (sys : Os) (c : Company) (w w' : world np sys) (d : Deal) :
  choice_from_list np ->
  process_company_deal np sys c w = Returned (Some d) w' ->
  In (owner d) SALES_OWNERS.
Proof.
  intros Hch H. apply process_company_deal_Some in H.
  destruct H as (l & w1 & Hs & Ho).
  apply deal_schedule_owner in Hs. destruct Hs as [s Hs].
  apply deal_outcome_fields in Ho. destruct Ho as (_ & _ & ->).
  rewrite Hs. apply Hch. discriminate.
Qed.

Lemma replay_choice_from_list (script : Z -> Replay.tape) :
  choice_from_list (Replay.numpy script).
Proof.
  intros a s Ha. simpl. unfold Replay.choice.
  destruct (Replay.next_int s) as [z s']. simpl.
  apply nth_In.
  assert (0 < Z.of_nat (List.length a))
    by (destruct a; [congruence|simpl; lia]).
  pose proof (Z.mod_pos_bound z (Z.of_nat (List.length a)) H). lia.
Qed.

Lemma owner_in_roster_run :
  let d := Replay.won_deal "ffffffff-ffff-4fff-bfff-ffffffffffff" in
  choice_from_list Replay.np
  /\ process_company_deal _ _ Replay.acme
       (Replay.start Replay.closed_won Replay.ones)
     = Returned (Some d) Replay.spent
  /\ In (owner d) SALES_OWNERS.
Proof.
  intros d. split; [apply replay_choice_from_list|].
  split; [reflexivity|].
  apply (owner_in_roster _ _ Replay.acme
           (Replay.start Replay.closed_won Replay.ones) Replay.spent).
  - apply replay_choice_from_list.
  - reflexivity.
Defined.

(** A record that is closed won has all four stage timestamps; a record
    that lacks a stage timestamp is closed lost. *)
Theorem won_deals_passed_every_stage
    (np : Numpy) (sys : Os) (c : Company) (w w' : world np sys) (d : Deal) :
  process_company_deal np sys c w = Returned (Some d) w' ->
  (is_null (stage_date_closed_won d) = false ->
   Forall (fun stage => is_null stage = false) (stages d))
  /\
  (In NaT (stages d) ->
   is_null (stage_date_closed_lost d) = false
   /\ is_null (stage_date_closed_won d) = true).
Proof.
  intros H. apply process_company_deal_Some in H.
  destruct H as (l & w1 & _ & H).
  apply deal_outcome_shape in H. unfold stages.
  destruct H as (_ & Hd & [H|[H|[H|H]]]).
  1-3: destruct H as (He & Hp & Hn & Hw & t & Hl);
       rewrite Hd, He, Hp, Hn, Hw, Hl; simpl;
       (split; [discriminate|auto]).
  destruct H as (He & Hp & Hn & Hwl). rewrite Hd, He, Hp, Hn.
  split.
  - intros _. repeat constructor.
  - simpl. intros [H|[H|[H|[H|[]]]]]; discriminate.
Qed.

Lemma won_deals_passed_every_stage_run :
  let d := Replay.won_deal "ffffffff-ffff-4fff-bfff-ffffffffffff" in
  process_company_deal _ _ Replay.acme
    (Replay.start Replay.closed_won Replay.ones)
  = Returned (Some d) Replay.spent
  /\ is_null (stage_date_closed_won d) = false
  /\ Forall (fun stage => is_null stage = false) (stages d).
Proof.
  intros d. split; [reflexivity|]. split; [reflexivity|].
  apply (won_deals_passed_every_stage _ _ Replay.acme
           (Replay.start Replay.closed_won Replay.ones) Replay.spent);
    reflexivity.
Defined.

(** ** The later checkpoints *)

(** When the evaluation checkpoint holds and the proposal checkpoint
    leaks, the record keeps its evaluation timestamp, has the proposal,
    negotiation and closed-won timestamps null, and is closed lost one to
    six days after the evaluation timestamp. *)
Theorem leak_at_proposal
    (np : Numpy) (sys : Os) (c : Company) (w w1 : world np sys)
    (l : Locals) :
  integers_in_range np ->
  deal_schedule np sys c w = Returned (Some l) w1 ->
  let s1 := rng w1 in
  let s2 := snd (rng_random np s1) in
  lt (fst (rng_random np s1)) (l_leak_eval_rate l) = false ->
  lt (fst (rng_random np s2)) (l_leak_prop_rate l) = true ->
  exists d w2 evaluation lost,
    process_company_deal np sys c w = Returned (Some d) w2
    /\ stage_date_evaluation d = Timestamp evaluation
    /\ stage_date_proposal d = NaT
    /\ stage_date_negotiation d = NaT
    /\ stage_date_closed_won d = NaT
    /\ stage_date_closed_lost d = Timestamp lost
    /\ evaluation + Timedelta_days 1 <= lost <= evaluation + Timedelta_days 6.
Proof.
  intros Hint Hs s1 s2 H1 H2. subst s1 s2.
  unfold process_company_deal, bind at 1. rewrite Hs.
  unfold deal_outcome.
  cbv beta iota delta [bind sample ret].
  destruct (rng_random np (rng w1)) as [r1 s2].
  cbv beta iota delta [rng os fst snd] in *. rewrite H1.
  destruct (rng_random np s2) as [r2 s3].
  cbv beta iota delta [rng os fst snd] in *. rewrite H2.
  pose proof (Hint 1 7 s3 ltac:(lia)) as Hk.
  destruct (rng_integers np 1 7 s3) as [k s']. simpl in Hk.
  do 4 eexists. split; [reflexivity|]. simpl.
  repeat (split; [reflexivity|]).
  unfold Timedelta_days, NS_PER_DAY. lia.
Qed.

Lemma leak_at_proposal_run :
  exists l w1,
    integers_in_range Replay.np
    /\ deal_schedule _ _ Replay.acme
         (Replay.start Replay.leak_at_proposal Replay.zeros)
       = Returned (Some l) w1
    /\ (let s1 := rng w1 in
        let s2 := snd (rng_random Replay.np s1) in
        lt (fst (rng_random Replay.np s1)) (l_leak_eval_rate l) = false
        /\ lt (fst (rng_random Replay.np s2)) (l_leak_prop_rate l) = true
        /\ exists d w2 evaluation lost,
             process_company_deal _ _ Replay.acme
               (Replay.start Replay.leak_at_proposal Replay.zeros)
             = Returned (Some d) w2
             /\ stage_date_evaluation d = Timestamp evaluation
             /\ stage_date_proposal d = NaT
             /\ stage_date_negotiation d = NaT
             /\ stage_date_closed_won d = NaT
             /\ stage_date_closed_lost d = Timestamp lost
             /\ evaluation + Timedelta_days 1 <= lost
                <= evaluation + Timedelta_days 6).
Proof.
  do 2 eexists.
  split; [apply replay_integers_in_range|].
  split; [vm_compute; reflexivity|].
  intros s1 s2.
  split; [reflexivity|]. split; [reflexivity|].
  eapply (leak_at_proposal _ _ Replay.acme
            (Replay.start Replay.leak_at_proposal Replay.zeros));
    [apply replay_integers_in_range | vm_compute; reflexivity
    | reflexivity | reflexivity].
Defined.

(** When the first two checkpoints hold and the negotiation checkpoint
    leaks, the record keeps its evaluation and proposal timestamps, has
    the negotiation and closed-won timestamps null, and is closed lost one
    to nine days after the proposal timestamp. *)
Theorem leak_at_negotiation
    (np : Numpy) (sys : Os) (c : Company) (w w1 : world np sys)
    (l : Locals) :
  integers_in_range np ->
  deal_schedule np sys c w = Returned (Some l) w1 ->
  let s1 := rng w1 in
  let s2 := snd (rng_random np s1) in
  let s3 := snd (rng_random np s2) in
  lt (fst (rng_random np s1)) (l_leak_eval_rate l) = false ->
  lt (fst (rng_random np s2)) (l_leak_prop_rate l) = false ->
  lt (fst (rng_random np s3)) (l_leak_neg_rate l) = true ->
  exists d w2 evaluation proposal lost,
    process_company_deal np sys c w = Returned (Some d) w2
    /\ stage_date_evaluation d = Timestamp evaluation
    /\ stage_date_proposal d = Timestamp proposal
    /\ stage_date_negotiation d = NaT
    /\ stage_date_closed_won d = NaT
    /\ stage_date_closed_lost d = Timestamp lost
    /\ proposal + Timedelta_days 1 <= lost <= proposal + Timedelta_days 9.
Proof.
  intros Hint Hs s1 s2 s3 H1 H2 H3. subst s1 s2 s3.
  unfold process_company_deal, bind at 1. rewrite Hs.
  unfold deal_outcome.
  cbv beta iota delta [bind sample ret].
  destruct (rng_random np (rng w1)) as [r1 s2].
  cbv beta iota delta [rng os fst snd] in *. rewrite H1.
  destruct (rng_random np s2) as [r2 s3].
  cbv beta iota delta [rng os fst snd] in *. rewrite H2.
  destruct (rng_random np s3) as [r3 s4].
  cbv beta iota delta [rng os fst snd] in *. rewrite H3.
  pose proof (Hint 1 10 s4 ltac:(lia)) as Hk.
  destruct (rng_integers np 1 10 s4) as [k s']. simpl in Hk.
  do 5 eexists. split; [reflexivity|]. simpl.
  repeat (split; [reflexivity|]).
  unfold Timedelta_days, NS_PER_DAY. lia.
Qed.

Lemma leak_at_negotiation_run :
  exists l w1,
    integers_in_range Replay.np
    /\ deal_schedule _ _ Replay.acme
         (Replay.start Replay.leak_at_negotiation Replay.zeros)
       = Returned (Some l) w1
    /\ (let s1 := rng w1 in
        let s2 := snd (rng_random Replay.np s1) in
        let s3 := snd (rng_random Replay.np s2) in
        lt (fst (rng_random Replay.np s1)) (l_leak_eval_rate l) = false
        /\ lt (fst (rng_random Replay.np s2)) (l_leak_prop_rate l) = false
        /\ lt (fst (rng_random Replay.np s3)) (l_leak_neg_rate l) = true
        /\ exists d w2 evaluation proposal lost,
             process_company_deal _ _ Replay.acme
               (Replay.start Replay.leak_at_negotiation Replay.zeros)
             = Returned (Some d) w2
             /\ stage_date_evaluation d = Timestamp evaluation
             /\ stage_date_proposal d = Timestamp proposal
             /\ stage_date_negotiation d = NaT
             /\ stage_date_closed_won d = NaT
             /\ stage_date_closed_lost d = Timestamp lost
             /\ proposal + Timedelta_days 1 <= lost
                <= proposal + Timedelta_days 9).
Proof.
  do 2 eexists.
  split; [apply replay_integers_in_range|].
  split; [vm_compute; reflexivity|].
  intros s1 s2 s3.
  split; [reflexivity|]. split; [reflexivity|]. split; [reflexivity|].
  eapply (leak_at_negotiation _ _ Replay.acme
            (Replay.start Replay.leak_at_negotiation Replay.zeros));
    [apply replay_integers_in_range | vm_compute; reflexivity
    | reflexivity | reflexivity | reflexivity].
Defined.

(** ** The closing date *)

Lemma deal_outcome_terminal
    (np : Numpy) (sys : Os) c l (w w' : world np sys) d :
  integers_in_range np ->
  deal_outcome np sys c l w = Returned d w' ->
  forall t,
    stage_date_closed_won d = Timestamp t
    \/ stage_date_closed_lost d = Timestamp t ->
    (stage_date_evaluation d = NaT /\ l_discovery_date l + NS_PER_DAY <= t)
    \/ (stage_date_proposal d = NaT /\ l_evaluation_date l + NS_PER_DAY <= t)
    \/ (stage_date_negotiation d = NaT
        /\ l_proposal_date l + NS_PER_DAY <= t)
    \/ l_negotiation_date l + NS_PER_DAY <= t.
Proof.
  intros Hint H. unfold deal_outcome in H. inv_py H.
  all: repeat match goal with
       | H : sample _ _ (rng_integers _ ?lo ?hi) ?w0 = Returned _ _ |- _ =>
           let Hk := fresh "Hk" in
           apply sample_Returned in H; destruct H as (H & _ & _);
           pose proof (Hint lo hi (rng w0) ltac:(lia)) as Hk;
           rewrite <- H in Hk; clear H
       | H : days_of _ _ _ _ = Returned _ _ |- _ =>
           apply days_of_ge in H; destruct H as [H _]
       end.
  all: simpl; intros t [Ht|Ht]; try discriminate Ht;
       injection Ht as <-; unfold Timedelta_days.
  all: assert (0 < NS_PER_DAY) by (unfold NS_PER_DAY; lia).
  all: first [ left; split; [reflexivity|]; nia
             | right; left; split; [reflexivity|]; nia
             | right; right; left; split; [reflexivity|]; nia
             | right; right; right; nia ].
Qed.

(** Whichever way a deal ends, its closing timestamp is at least one day
    after its creation date and after every stage timestamp it has. *)
Theorem terminal_after_every_stage
    (np : Numpy) (sys : Os) (c : Company) (w w' : world np sys) (d : Deal)
    (i : nat) (stage terminal : Z) :
  integers_in_range np ->
  process_company_deal np sys c w = Returned (Some d) w' ->
  stage_date_closed_won d = Timestamp terminal
  \/ stage_date_closed_lost d = Timestamp terminal ->
  nth_error (timeline d) i = Some (Timestamp stage) ->
  stage + NS_PER_DAY <= terminal.
Proof.
  intros Hint H Ht. apply process_company_deal_Some in H.
  destruct H as (l & w1 & Hs & H).
  apply deal_schedule_ordered in Hs.
  pose proof (deal_outcome_terminal _ _ _ _ _ _ _ Hint H _ Ht) as Hterm.
  apply deal_outcome_shape in H.
  assert (0 < NS_PER_DAY) by (unfold NS_PER_DAY; lia).
  unfold timeline, stages.
  destruct H as (Hc & Hd & [H|[H|[H|H]]]).
  1-3: destruct H as (He & Hp & Hn & _); rewrite Hc, Hd, He, Hp, Hn.
  4: destruct H as (He & Hp & Hn & _); rewrite Hc, Hd, He, Hp, Hn.
  all: rewrite ?He, ?Hp, ?Hn in Hterm;
    destruct Hterm as [[E ?]|[[E ?]|[[E ?]|?]]]; try discriminate E;
    intros Hi;
    destruct i as [|[|[|[|[|i]]]]]; simpl in Hi; try discriminate Hi;
    try (injection Hi as Hi; lia);
    destruct i; discriminate Hi.
Qed.

Lemma terminal_after_every_stage_run :
  let d := Replay.leaked_deal in
  integers_in_range Replay.np
  /\ process_company_deal _ _ Replay.acme
       (Replay.start Replay.leak_at_evaluation Replay.zeros)
     = Returned (Some d) Replay.spent
  /\ (stage_date_closed_won d = Timestamp 1737072000000000000
      \/ stage_date_closed_lost d = Timestamp 1737072000000000000)
  /\ nth_error (timeline d) 1 = Some (Timestamp 1736812800000000000)
  /\ 1736812800000000000 + NS_PER_DAY <= 1737072000000000000.
Proof.
  intros d. split; [apply replay_integers_in_range|].
  split; [reflexivity|]. split; [right; reflexivity|].
  split; [reflexivity|].
  apply (terminal_after_every_stage _ _ Replay.acme
           (Replay.start Replay.leak_at_evaluation Replay.zeros)
           Replay.spent d 1%nat).
  - apply replay_integers_in_range.
  - reflexivity.
  - right. reflexivity.
  - reflexivity.
Defined.

(** ** The run as a whole *)

Lemma subsequence_app {A} (a1 a2 b1 b2 : list A) :
  subsequence a1 b1 -> subsequence a2 b2 ->
  subsequence (a1 ++ a2) (b1 ++ b2).
Proof.
  induction 1; intros H2; simpl; auto using @subsequence.
Qed.

Lemma subsequence_length {A} (l1 l2 : list A) :
  subsequence l1 l2 -> (List.length l1 <= List.length l2)%nat.
Proof. induction 1; simpl; lia. Qed.

Lemma main_loop_appends (np : Numpy) (sys : Os) companies :
  forall deals_data (w w' : world np sys) deals,
    main_loop np sys companies deals_data w = Returned deals w' ->
    exists new,
      deals = deals_data ++ new
      /\ subsequence (map account_id new)
           (map CompanyRow.account_id companies).
Proof.
  induction companies as [|c rest IH]; intros acc w w' deals H;
    cbn [main_loop] in H.
  - inv_py H. exists []. rewrite app_nil_r. split; constructor.
  - apply bind_Returned in H. destruct H as ([d|] & w1 & Hp & H).
    + apply IH in H. destruct H as (new & -> & Hsub).
      apply process_company_deal_account in Hp.
      exists (d :: new). rewrite <- app_assoc. split; [reflexivity|].
      cbn [map]. rewrite Hp. now constructor.
    + apply IH in H. destruct H as (new & -> & Hsub).
      exists new. split; [reflexivity|]. cbn [map]. now constructor.
Qed.

(** The deals of a run follow the companies in input order, at most one
    per company: their company identifiers are the company identifiers
    of the input with some left out. *)
Theorem main_at_most_one_deal_per_company_in_order
    (np : Numpy) (sys : Os) (companies : list Company)
    (w w' : world np sys) (deals : list Deal) :
  main np sys companies w = Returned deals w' ->
  subsequence (map account_id deals) (map CompanyRow.account_id companies)
  /\ (List.length deals <= List.length companies)%nat.
Proof.
  unfold main. intros H. apply main_loop_appends in H.
  destruct H as (new & -> & Hsub). cbn [app].
  split; [exact Hsub|].
  apply subsequence_length in Hsub. now rewrite !length_map in Hsub.
Qed.

Lemma main_at_most_one_deal_per_company_in_order_run :
  let deals := [Replay.won_deal "ffffffff-ffff-4fff-bfff-ffffffffffff"] in
  main _ _ [Replay.acme; Replay.acme]
    (Replay.start Replay.won_then_rejected Replay.ones)
  = Returned deals Replay.spent
  /\ subsequence (map account_id deals)
       (map CompanyRow.account_id [Replay.acme; Replay.acme])
  /\ (List.length deals <= List.length [Replay.acme; Replay.acme])%nat.
Proof.
  intros deals. split; [reflexivity|].
  apply (main_at_most_one_deal_per_company_in_order _ _
           [Replay.acme; Replay.acme]
           (Replay.start Replay.won_then_rejected Replay.ones)
           Replay.spent).
  reflexivity.
Defined.

(** ** The report *)

(** The report built from the deals never shows a generated deal as
    open: a company with a record is reported won or lost, a company
    without one is reported as no opportunity. *)
Theorem generated_deals_are_never_open
    (np : Numpy) (sys : Os) (c : Company) (w w' : world np sys)
    (row : option Deal) :
  process_company_deal np sys c w = Returned row w' ->
  match row with
  | Some d =>
      (outcome row = "won"%string
       /\ is_null (stage_date_closed_won d) = false)
      \/ (outcome row = "lost"%string
          /\ is_null (stage_date_closed_won d) = true)
  | None => outcome row = "no_opp"%string
  end.
Proof.
  destruct row as [d|]; [|reflexivity].
  intros H. apply process_company_deal_Some in H.
  destruct H as (l & w1 & _ & H).
  apply deal_outcome_shape in H.
  unfold outcome, is_customer, is_opportunity.
  destruct H as (_ & _ & [H|[H|[H|H]]]).
  1-3: destruct H as (_ & _ & _ & -> & t & ->); simpl; auto.
  destruct H as (_ & _ & _ & [[-> [t ->]]|[-> [t ->]]]); simpl; auto.
Qed.

Lemma generated_deals_are_never_open_run :
  let row := Some Replay.leaked_deal in
  process_company_deal _ _ Replay.acme
    (Replay.start Replay.leak_at_evaluation Replay.zeros)
  = Returned row Replay.spent
  /\ ((outcome row = "won"%string
       /\ is_null (stage_date_closed_won Replay.leaked_deal) = false)
      \/ (outcome row = "lost"%string
          /\ is_null (stage_date_closed_won Replay.leaked_deal) = true)).
Proof.
  intros row. split; [reflexivity|].
  apply (generated_deals_are_never_open _ _ Replay.acme
           (Replay.start Replay.leak_at_evaluation Replay.zeros)
           Replay.spent row).
  reflexivity.
Defined.

(** ** The sales cycle of the report *)

(** The latest stage date of the report, from which it measures the
    sales cycle, is the closing date of the deal, two days or more after
    the deal was created. *)
Theorem latest_stage_is_closing_date
    (np : Numpy) (sys : Os) (c : Company) (w w' : world np sys) (d : Deal) :
  integers_in_range np ->
  process_company_deal np sys c w = Returned (Some d) w' ->
  exists created closing,
    created_date d = Timestamp created
    /\ latest_stage (Some d) = Timestamp closing
    /\ (stage_date_closed_won d = Timestamp closing
        \/ stage_date_closed_lost d = Timestamp closing)
    /\ created + 2 * NS_PER_DAY <= closing.
Proof.
  intros Hint H. apply process_company_deal_Some in H.
  destruct H as (l & w1 & Hs & H).
  apply deal_schedule_ordered in Hs.
  pose proof (deal_outcome_terminal _ _ _ _ _ _ _ Hint H) as Hterm.
  apply deal_outcome_shape in H.
  assert (0 < NS_PER_DAY) by (unfold NS_PER_DAY; lia).
  unfold latest_stage.
  destruct H as (Hc & Hd & [H|[H|[H|H]]]).
  1-3: destruct H as (He & Hp & Hn & Hw & t & Hl);
       specialize (Hterm t (or_intror Hl));
       rewrite He, Hp, Hn in Hterm;
       destruct Hterm as [[E ?]|[[E ?]|[[E ?]|?]]]; try discriminate E;
       exists (l_created_date l), t;
       rewrite Hc, Hd, He, Hp, Hn, Hw, Hl; cbn [fold_left later];
       (split; [reflexivity|]);
       (split; [f_equal; lia|]); (split; [right; reflexivity|lia]).
  destruct H as (He & Hp & Hn & [[Hl [t Hw]]|[Hw [t Hl]]]).
  - specialize (Hterm t (or_introl Hw)).
    rewrite He, Hp, Hn in Hterm.
    destruct Hterm as [[E ?]|[[E ?]|[[E ?]|?]]]; try discriminate E.
    exists (l_created_date l), t.
    rewrite Hc, Hd, He, Hp, Hn, Hw, Hl. cbn [fold_left later].
    split; [reflexivity|]. split; [f_equal; lia|].
    split; [left; reflexivity|lia].
  - specialize (Hterm t (or_intror Hl)).
    rewrite He, Hp, Hn in Hterm.
    destruct Hterm as [[E ?]|[[E ?]|[[E ?]|?]]]; try discriminate E.
    exists (l_created_date l), t.
    rewrite Hc, Hd, He, Hp, Hn, Hw, Hl. cbn [fold_left later].
    split; [reflexivity|]. split; [f_equal; lia|].
    split; [right; reflexivity|lia].
Qed.

Lemma latest_stage_is_closing_date_run :
  let d := Replay.leaked_deal in
  integers_in_range Replay.np
  /\ process_company_deal _ _ Replay.acme
       (Replay.start Replay.leak_at_evaluation Replay.zeros)
     = Returned (Some d) Replay.spent
  /\ exists created closing,
       created_date d = Timestamp created
       /\ latest_stage (Some d) = Timestamp closing
       /\ (stage_date_closed_won d = Timestamp closing
           \/ stage_date_closed_lost d = Timestamp closing)
       /\ created + 2 * NS_PER_DAY <= closing.
Proof.
  intros d. split; [apply replay_integers_in_range|].
  split; [reflexivity|].
  apply (latest_stage_is_closing_date _ _ Replay.acme
           (Replay.start Replay.leak_at_evaluation Replay.zeros)
           Replay.spent d).
  - apply replay_integers_in_range.
  - reflexivity.
Defined.

(** ** Health-technology flags *)

Lemma lower_app (s t : string) :
  lower (s ++ t) = (lower s ++ lower t)%string.
Proof. induction s as [|c s IH]; simpl; [reflexivity|now rewrite IH]. Qed.

Lemma prefix_app (k a b : string) :
  String.prefix k a = true -> String.prefix k (a ++ b) = true.
Proof.
  revert k. induction a as [|c a IH]; intros k H.
  - destruct k; [|discriminate H]. destruct b; reflexivity.
  - destruct k as [|c' k]; [reflexivity|]. simpl in *.
    destruct (ascii_dec c' c); [now apply IH|discriminate H].
Qed.

Lemma contains_app_l (k a b : string) :
  contains k a = true -> contains k (a ++ b) = true.
Proof.
  induction a as [|c a IH]; intros H.
  - simpl in H. destruct k; [|discriminate H].
    destruct b; reflexivity.
  - cbn [contains] in H. change ((String c a ++ b)%string)
      with (String c (a ++ b)). cbn [contains].
    destruct (String.prefix k (String c a)) eqn:E.
    + change (String c (a ++ b)) with ((String c a ++ b)%string).
      now rewrite (prefix_app _ _ b E).
    + destruct (String.prefix k (String c (a ++ b))); auto.
Qed.

Lemma contains_app_r (k a b : string) :
  contains k b = true -> contains k (a ++ b) = true.
Proof.
  intros H. induction a as [|c a IH]; [exact H|].
  change ((String c a ++ b)%string) with (String c (a ++ b)).
  cbn [contains]. rewrite IH.
  destruct (String.prefix k (String c (a ++ b))); reflexivity.
Qed.

Lemma contains_app (k a b : string) :
  (contains k a || contains k b)%bool = true ->
  contains k (a ++ b) = true.
Proof.
  intros H. apply orb_true_iff in H.
  destruct H; [now apply contains_app_l|now apply contains_app_r].
Qed.

Lemma any_in_app (keys : list string) (a b : string) :
  (any_in keys a || any_in keys b)%bool = true ->
  any_in keys (a ++ b) = true.
Proof.
  unfold any_in. intros H. apply orb_true_iff in H.
  apply existsb_exists.
  destruct H as [H|H]; apply existsb_exists in H;
    destruct H as (k & Hin & Hk); exists k; split; try assumption;
    [now apply contains_app_l|now apply contains_app_r].
Qed.

(** A signal found in either of two texts is found in their
    concatenation: adding text to the [health_tech] cell never clears
    one of the three flags. *)
Theorem parse_health_tech_concat (s t : string) :
  let p := parse_health_tech (Some s) in
  let q := parse_health_tech (Some t) in
  let r := parse_health_tech (Some (s ++ t)%string) in
  implb (fst (fst p) || fst (fst q)) (fst (fst r)) = true
  /\ implb (snd (fst p) || snd (fst q)) (snd (fst r)) = true
  /\ implb (snd p || snd q) (snd r) = true.
Proof.
  cbv zeta. unfold parse_health_tech. cbn [fst snd].
  rewrite lower_app.
  set (a := lower s). set (b := lower t).
  repeat split; apply (proj2 (implb_true_iff _ _)); intros H.
  - now apply any_in_app.
  - apply orb_true_iff.
    assert (H' : ((contains "fhir" a || contains "fhir" b)
                  || (contains "hl7" a || contains "hl7" b))%bool = true).
    { destruct (contains "fhir" a), (contains "fhir" b),
        (contains "hl7" a), (contains "hl7" b); try discriminate H;
        reflexivity. }
    apply orb_true_iff in H'.
    destruct H' as [H'|H']; [left|right]; now apply contains_app.
  - now apply any_in_app.
Qed.

(** ** Leakage and fit *)

Lemma iter_pos_shift {A} (f : A -> A) (p : positive) : forall x,
  iter_pos f p (f x) = f (iter_pos f p x).
Proof.
  induction p as [p IH|p IH|]; intros x; cbn [iter_pos].
  - now rewrite !IH.
  - now rewrite !IH.
  - reflexivity.
Qed.

Lemma iter_pos_succ {A} (f : A -> A) (p : positive) : forall x,
  iter_pos f (Pos.succ p) x = iter_pos f p (f x).
Proof.
  induction p as [p IH|p IH|]; intros x; cbn [Pos.succ iter_pos].
  - rewrite !IH. now rewrite !iter_pos_shift.
  - now rewrite !iter_pos_shift.
  - reflexivity.
Qed.

(** Doubling the mantissa and lowering the exponent by one does not
    change what a mantissa of 53 bits or more rounds to. *)
Lemma binary_round_aux_double (s : bool) (M : positive) (E : Z) :
  53 <= Zpos (digits2_pos M) ->
  binary_round_aux prec emax s (Zpos M~0) E loc_Exact
  = binary_round_aux prec emax s (Zpos M) (E + 1) loc_Exact.
Proof.
  intros Hd. unfold binary_round_aux.
  assert (Hs : shr_fexp prec emax (Zpos M~0) E loc_Exact
               = shr_fexp prec emax (Zpos M) (E + 1) loc_Exact).
  { unfold shr_fexp. cbn [Zdigits2 digits2_pos].
    set (k := fexp prec emax (Zpos (digits2_pos M) + (E + 1)) - (E + 1)).
    assert (Hk : 0 <= k)
      by (unfold k, fexp, SpecFloat.emin, prec, emax; lia).
    replace (fexp prec emax (Zpos (Pos.succ (digits2_pos M)) + E) - E)
      with (k + 1)
      by (unfold k, fexp, SpecFloat.emin, prec, emax; lia).
    destruct k as [|p|p]; [| |lia].
    - cbn [Z.add shr iter_pos shr_record_of_loc shr_1 orb]. reflexivity.
    - replace (Zpos p + 1) with (Zpos (Pos.succ p)) by lia.
      cbn [shr]. rewrite iter_pos_succ.
      cbn [shr_record_of_loc shr_1 orb]. f_equal. lia. }
  now rewrite Hs.
Qed.

(** [mul_by_larger_constant], for a larger constant that may reach
    [2^53]. *)
Lemma round_larger (mx : positive) (E : Z) (a b : positive) :
  2 ^ 52 <= Zpos a -> Zpos a + 6 <= Zpos b -> Zpos b <= 2 ^ 53 ->
  Zpos b < 2 * Zpos a ->
  let p0 := binary_round_aux prec emax false (Zpos (mx * a)) E loc_Exact in
  let p1 := binary_round_aux prec emax false (Zpos (mx * b)) E loc_Exact in
  lt p0 p1 = true
  \/ (lt p0 tiny = true /\ lt p1 tiny = true)
  \/ (p0 = S754_infinity false /\ p1 = S754_infinity false).
Proof.
  intros Ha Hab Hb Hb2. cbv zeta.
  set (X := Zpos mx). assert (HX : 1 <= X) by (unfold X; lia).
  assert (H0 : Zpos (mx * a) = X * Zpos a) by apply Pos2Z.inj_mul.
  assert (H1 : Zpos (mx * b) = X * Zpos b) by apply Pos2Z.inj_mul.
  assert (HaX : X * Zpos a < X * 2 ^ 53)
    by (apply Z.mul_lt_mono_pos_l; lia).
  assert (HabX : X * (Zpos a + 6) <= X * Zpos b)
    by (apply Z.mul_le_mono_nonneg_l; lia).
  assert (HbX : X * Zpos b < X * (2 * Zpos a))
    by (apply Z.mul_lt_mono_pos_l; lia).
  assert (HaX1 : 1 * Zpos a <= X * Zpos a)
    by (apply Z.mul_le_mono_nonneg_r; lia).
  pose proof (digits2_pos_bounds (mx * a)) as [Hd0l Hd0h].
  pose proof (digits2_pos_bounds (mx * b)) as [Hd1l Hd1h].
  set (d0 := Zpos (digits2_pos (mx * a))) in *.
  set (d1 := Zpos (digits2_pos (mx * b))) in *.
  assert (Hd0 : 53 <= d0) by (apply digits2_pos_ge; lia).
  assert (Hd01 : d0 <= d1) by (apply digits2_pos_le; lia).
  assert (Hd10 : d1 <= d0 + 1).
  { apply digits2_pos_le; [lia|].
    rewrite Z.pow_add_r by lia. change (2 ^ 1) with 2. lia. }
  destruct (binary_round_aux_packed false (mx * a) E ltac:(fold d0; lia))
    as (m0 & Hm0 & Hm0b & ->).
  destruct (binary_round_aux_packed false (mx * b) E ltac:(fold d1; lia))
    as (m1 & Hm1 & Hm1b & ->).
  fold d0 in Hm0 |- *. fold d1 in Hm1 |- *.
  destruct (Z_lt_le_dec (d0 - 53) (-1074 - E)) as [Hs|Hn].
  - right; left.
    replace (E + Z.max (d0 - 53) (-1074 - E)) with (-1074) by lia.
    replace (E + Z.max (d1 - 53) (-1074 - E)) with (-1074) by lia.
    split; now apply packed_tiny.
  - replace (Z.max (d0 - 53) (-1074 - E)) with (d0 - 53) in * by lia.
    replace (Z.max (d1 - 53) (-1074 - E)) with (d1 - 53) in * by lia.
    set (k0 := d0 - 53) in *. set (k1 := d1 - 53) in *.
    assert (HK0 : 0 < 2 ^ k0) by (apply Z.pow_pos_nonneg; lia).
    assert (HK1 : 0 < 2 ^ k1) by (apply Z.pow_pos_nonneg; lia).
    assert (Hp0 : 2 ^ (d0 - 1) = 2 ^ 52 * 2 ^ k0)
      by (rewrite <- Z.pow_add_r by lia; f_equal; lia).
    assert (Hp1 : 2 ^ (d1 - 1) = 2 ^ 52 * 2 ^ k1)
      by (rewrite <- Z.pow_add_r by lia; f_equal; lia).
    assert (HK01 : 2 ^ k1 <= 2 * 2 ^ k0).
    { assert (H : 2 ^ k1 <= 2 ^ (k0 + 1))
        by (apply Z.pow_le_mono_r; lia).
      rewrite Z.pow_add_r in H by lia. change (2 ^ 1) with 2 in H. lia. }
    assert (Hq0 : 2 ^ 52 <= Zpos (mx * a) / 2 ^ k0)
      by (apply Z.div_le_lower_bound; lia).
    assert (Hq1 : 2 ^ 52 <= Zpos (mx * b) / 2 ^ k1)
      by (apply Z.div_le_lower_bound; lia).
    pose proof (Z.mul_div_le (Zpos (mx * a)) (2 ^ k0) HK0) as Hf0.
    pose proof (Z.mul_succ_div_gt (Zpos (mx * b)) (2 ^ k1) HK1) as Hc1.
    cut (m0 * 2 ^ k0 < m1 * 2 ^ k1).
    { intros Hlt.
      destruct (packed_lt m0 m1 E k0 k1) as [H|H]; try lia; auto. }
    set (K0 := 2 ^ k0) in *. set (K1 := 2 ^ k1) in *.
    set (q0 := Zpos (mx * a) / K0) in *.
    set (q1 := Zpos (mx * b) / K1) in *.
    assert (Hl : m0 * K0 <= (q0 + 1) * K0)
      by (apply Z.mul_le_mono_nonneg_r; lia).
    assert (Hr : q1 * K1 <= m1 * K1)
      by (apply Z.mul_le_mono_nonneg_r; lia).
    change (2 ^ 53) with (2 * 2 ^ 52) in HaX.
    lia.
Qed.

Lemma nonpositive_lt (v lo : float) :
  nonpositive v = true -> lt (S754_zero false) lo = true ->
  lt v lo = true.
Proof.
  destruct v as [[]|[]| |[] m e], lo as [[]|[]| |[] m' e'];
    intros Hv Hlo; try discriminate Hv; try discriminate Hlo;
    reflexivity.
Qed.

Lemma clamp_nonpositive_lo (v lo hi : float) :
  nonpositive v = true -> lt tiny lo = true -> lt lo hi = true ->
  clamp v lo hi = lo.
Proof.
  intros Hv Hlo Hlh. apply clamp_below; [|exact Hlh].
  apply nonpositive_lt; [exact Hv|].
  eapply lt_trans; [|exact Hlo]. reflexivity.
Qed.

Lemma clamp_le_refl (v lo hi : float) :
  lt lo hi = true -> le (clamp v lo hi) (clamp v lo hi) = true.
Proof.
  intros Hlh. apply le_refl.
  destruct (clamp_bounds v lo hi (lt_le _ _ Hlh)) as [H _].
  exact (le_not_nan_r _ _ H).
Qed.

(** The clamped product with the smaller of two constants is never above
    the clamped product with the larger one, whatever the other factor. *)
Lemma rounded_clamp_le (sx : bool) (mx : positive) (E : Z) (a b : positive)
    (lo hi : float) :
  2 ^ 52 <= Zpos a -> Zpos a + 6 <= Zpos b -> Zpos b <= 2 ^ 53 ->
  Zpos b < 2 * Zpos a ->
  lt tiny lo = true -> lt lo hi = true ->
  le (clamp (binary_round_aux prec emax sx (Zpos (mx * a)) E loc_Exact)
        lo hi)
     (clamp (binary_round_aux prec emax sx (Zpos (mx * b)) E loc_Exact)
        lo hi) = true.
Proof.
  intros Ha Hab Hb Hb2 Hlo Hlh.
  destruct sx.
  - destruct (binary_round_aux_packed true (mx * a) E) as (m0 & _ & _ & ->).
    { apply digits2_pos_ge. rewrite Pos2Z.inj_mul. nia. }
    destruct (binary_round_aux_packed true (mx * b) E) as (m1 & _ & _ & ->).
    { apply digits2_pos_ge. rewrite Pos2Z.inj_mul. nia. }
    rewrite !clamp_nonpositive_lo
      by first [apply packed_true_nonpositive | assumption].
    apply le_refl. exact (lt_not_nan_l _ _ Hlh).
  - destruct (round_larger mx E a b Ha Hab Hb Hb2) as [H|[[H0 H1]|[H0 H1]]].
    + now apply clamp_lt.
    + rewrite !clamp_below
        by first [exact Hlh | eapply lt_trans; [eassumption|exact Hlo]].
      apply le_refl. exact (lt_not_nan_l _ _ Hlh).
    + rewrite H0, H1. now apply clamp_le_refl.
Qed.

(** Two constants of the same exponent. *)
Lemma scaled_clamp_le (x : float) (a b : positive) (e : Z) (lo hi : float) :
  2 ^ 52 <= Zpos a -> Zpos a + 6 <= Zpos b -> Zpos b < 2 ^ 53 ->
  lt tiny lo = true -> lt lo hi = true ->
  le (clamp (mul x (S754_finite false a e)) lo hi)
     (clamp (mul x (S754_finite false b e)) lo hi) = true.
Proof.
  intros Ha Hab Hb Hlo Hlh.
  destruct x as [s|s| |s mx ex]; cbn [mul SFmul];
    try (now apply clamp_le_refl).
  apply rounded_clamp_le; try assumption; lia.
Qed.

(** A constant below one against the constant [1.0]. *)
Lemma scaled_clamp_le_one (x : float) (a : positive) (lo hi : float) :
  2 ^ 52 < Zpos a -> Zpos a + 6 <= 2 ^ 53 ->
  lt tiny lo = true -> lt lo hi = true ->
  le (clamp (mul x (S754_finite false a (-53))) lo hi)
     (clamp (mul x (S754_finite false 4503599627370496 (-52))) lo hi)
  = true.
Proof.
  intros Ha Ha' Hlo Hlh.
  destruct x as [s|s| |s mx ex]; cbn [mul SFmul];
    try (now apply clamp_le_refl).
  replace (ex + -52) with (ex + -53 + 1) by lia.
  rewrite <- binary_round_aux_double
    by (apply digits2_pos_ge; rewrite Pos2Z.inj_mul; nia).
  rewrite <- Pos.mul_xO_r.
  apply rounded_clamp_le; try assumption; lia.
Qed.

(** The adjustment of [calculate_leakage_rates] with more flags set
    scales a baseline to a rate that is not larger. *)
Lemma leakage_adjustment_le (icp prev rail i p r : bool)
    (x lo hi : float) :
  lt tiny lo = true -> lt lo hi = true ->
  let adjust (icp prev rail : bool) :=
    let adjustment := dec 10 10 in
    let adjustment :=
      if icp then mul adjustment (dec 85 100) else adjustment in
    let adjustment :=
      if prev then mul adjustment (dec 70 100) else adjustment in
    if rail then mul adjustment (dec 90 100) else adjustment in
  le (clamp (mul x (adjust (icp || i) (prev || p) (rail || r))%bool) lo hi)
     (clamp (mul x (adjust icp prev rail)) lo hi) = true.
Proof.
  intros Hlo Hlh adjust.
  destruct icp, prev, rail, i, p, r; cbn [orb];
    try (now apply clamp_le_refl).
  all: match goal with
       | |- le (clamp (mul _ ?a1) _ _) (clamp (mul _ ?a0) _ _) = true =>
           let v1 := eval vm_compute in a1 in
           let v0 := eval vm_compute in a0 in
           replace a1 with v1 by (vm_compute; reflexivity);
           replace a0 with v0 by (vm_compute; reflexivity)
       end.
  all: first [ apply scaled_clamp_le; [lia|lia|lia|exact Hlo|exact Hlh]
             | apply scaled_clamp_le_one; [lia|lia|exact Hlo|exact Hlh] ].
Qed.

(** With the three baseline draws fixed, setting one more of the flags
    (ideal customer profile, prior customer, EDI rail) never raises any
    of the three leakage rates. *)
Theorem leakage_rates_never_rise_with_fit
    (np : Numpy) (sys : Os) (icp prev rail i p r : bool)
    (w : world np sys) :
  exists e0 p0 n0 e1 p1 n1 w',
    calculate_leakage_rates np sys icp prev rail w
    = Returned (e0, p0, n0) w'
    /\ calculate_leakage_rates np sys (icp || i) (prev || p) (rail || r) w
       = Returned (e1, p1, n1) w'
    /\ le e1 e0 = true /\ le p1 p0 = true /\ le n1 n0 = true.
Proof.
  run_py. do 7 eexists.
  split; [reflexivity|]. split; [reflexivity|].
  repeat split;
    apply (leakage_adjustment_le icp prev rail i p r);
    vm_compute; reflexivity.
Qed.

(** ** The entropy pool *)

Section Entropy.

Context (np : Numpy) (sys : Os).

Lemma int_of_float_state (x : float) (w w' : world np sys) n :
  int_of_float x w = Returned n w' -> w' = w.
Proof.
  destruct x; simpl; intros H; try discriminate H;
    apply ret_Returned in H; tauto.
Qed.

Lemma float_of_int_state (n : Z) (w w' : world np sys) x :
  float_of_int n w = Returned x w' -> w' = w.
Proof.
  unfold float_of_int. destruct (of_int n); simpl; intros H;
    try discriminate H; apply ret_Returned in H; tauto.
Qed.

(** Every step of the script but [generate_id] leaves the pool alone. *)
Ltac pool :=
  repeat match goal with
  | H : sample _ _ _ _ = Returned _ _ |- _ =>
      apply sample_Returned in H; destruct H as (_ & _ & H)
  | H : days_of _ _ _ _ = Returned _ _ |- _ =>
      apply days_of_ge in H; destruct H as (_ & H)
  | H : int_of_float _ _ = Returned _ _ |- _ =>
      apply int_of_float_state in H
  | H : float_of_int _ _ = Returned _ _ |- _ =>
      apply float_of_int_state in H
  end;
  subst; simpl in *; try congruence.

Lemma create_probability_os a b c d e f g (w w' : world np sys) p :
  calculate_create_probability np sys a b c d e f g w = Returned p w' ->
  os w' = os w.
Proof.
  unfold calculate_create_probability, generate_baseline_probability,
    add_jitter.
  intros H. inv_py H. pool.
Qed.

Lemma win_probability_os a b c d e f g h (w w' : world np sys) p :
  calculate_win_probability np sys a b c d e f g h w = Returned p w' ->
  os w' = os w.
Proof.
  unfold calculate_win_probability, generate_baseline_probability,
    add_jitter.
  intros H. inv_py H. pool.
Qed.

Lemma duration_scales_os a b c d (w w' : world np sys) r :
  calculate_duration_scales np sys a b c d w = Returned r w' ->
  os w' = os w.
Proof.
  unfold calculate_duration_scales, add_jitter.
  intros H. inv_py H. pool.
Qed.

Lemma leakage_rates_os a b c (w w' : world np sys) r :
  calculate_leakage_rates np sys a b c w = Returned r w' ->
  os w' = os w.
Proof.
  unfold calculate_leakage_rates.
  intros H. inv_py H. pool.
Qed.

Lemma generate_id_os (w w' : world np sys) id :
  generate_id np sys w = Returned id w' ->
  os w' = snd (os_urandom sys 16 (os w)).
Proof.
  unfold generate_id, uuid4, os_read, bind.
  destruct (os_urandom sys 16 (os w)) as [bs o].
  destruct (Nat.eqb (List.length bs) 16); simpl; intros H;
    [|discriminate H].
  apply ret_Returned in H. destruct H as [_ ->]. reflexivity.
Qed.

Lemma deal_schedule_os c (w w' : world np sys) o :
  deal_schedule np sys c w = Returned o w' ->
  os w' = match o with
          | Some _ => snd (os_urandom sys 16 (os w))
          | None => os w
          end.
Proof.
  unfold deal_schedule.
  destruct (parse_health_tech (CompanyRow.health_tech c))
    as [[has_x12 has_fhir] has_clr].
  intros H. inv_py H.
  all: repeat match goal with
       | H : calculate_create_probability _ _ _ _ _ _ _ _ _ _
             = Returned _ _ |- _ => apply create_probability_os in H
       | H : calculate_win_probability _ _ _ _ _ _ _ _ _ _ _
             = Returned _ _ |- _ => apply win_probability_os in H
       | H : calculate_duration_scales _ _ _ _ _ _ _ = Returned _ _ |- _ =>
           apply duration_scales_os in H
       | H : calculate_leakage_rates _ _ _ _ _ _ = Returned _ _ |- _ =>
           apply leakage_rates_os in H
       | H : generate_id _ _ _ = Returned _ _ |- _ =>
           apply generate_id_os in H
       end.
  all: pool.
Qed.

Lemma deal_outcome_os c l (w w' : world np sys) d :
  deal_outcome np sys c l w = Returned d w' -> os w' = os w.
Proof.
  unfold deal_outcome. intros H. inv_py H; pool.
Qed.

End Entropy.

(** The operating system's entropy is read once, for sixteen bytes, for
    each deal that is created, and not at all for a company that gets no
    deal. *)
Theorem entropy_is_read_once_per_deal
    (np : Numpy) (sys : Os) (c : Company) (w w' : world np sys)
    (row : option Deal) :
  process_company_deal np sys c w = Returned row w' ->
  os w' = match row with
          | Some _ => snd (os_urandom sys 16 (os w))
          | None => os w
          end.
Proof.
  unfold process_company_deal. intros H.
  apply bind_Returned in H. destruct H as (o & w1 & Hs & H).
  apply deal_schedule_os in Hs.
  destruct o as [l|].
  - apply bind_Returned in H. destruct H as (d & w2 & Ho & H).
    apply deal_outcome_os in Ho.
    apply ret_Returned in H. destruct H as [-> ->]. congruence.
  - apply ret_Returned in H. destruct H as [-> ->]. exact Hs.
Qed.

Lemma entropy_is_read_once_per_deal_run :
  let row := Some (Replay.won_deal "ffffffff-ffff-4fff-bfff-ffffffffffff") in
  let w := Replay.start Replay.closed_won (Replay.ones ++ Replay.zeros) in
  let w' := Replay.start {| Replay.floats := []; Replay.ints := [] |}
              Replay.zeros in
  process_company_deal _ _ Replay.acme w = Returned row w'
  /\ os w' = snd (os_urandom Replay.system 16 (os w)).
Proof.
  intros row w w'. split; [reflexivity|].
  apply (entropy_is_read_once_per_deal _ _ Replay.acme w w' row).
  reflexivity.
Defined.
